(** * Web2Native: the web-shell runtime of the generated applications

    The generators [web2candroid.py] and [web2cios.py] emit the sources of a
    native host application; the stateful part is the Kotlin class
    [MainActivity] written by [build_android_native] and the Swift class
    [ViewController] written by [build_ios_native].  This development embeds
    the emitted handlers as functions over an explicit activity state and
    proves the properties stated for them.

    Conventions of the embedding:
    - a handler is a computation in the monad [M]: it reads and updates the
      fields of [MainActivity] and appends to a list of [Effect]s, the calls
      it makes on the Android framework (toasts, [loadUrl], launchers, ...);
    - what the framework reports back ([isFinishing], the active network,
      [myWebView.url], [SDK_INT], ...) are fields of the state that handlers
      only read;
    - [Handler.postDelayed] queues a [Runnable] with its due time in
      [mainLooper]; [deliver] runs the runnables that are due.  *)

From stdpp Require Import gmap strings list.
From Stdlib Require Import ZArith String Lia.

Open Scope string_scope.
Open Scope list_scope.
Open Scope Z_scope.

(** ** Framework-side values *)

(** A [ValueCallback<Array<Uri>>] handed over by the web view, by identity. *)
Definition Callback := nat.

(** [Manifest.permission.*] constants, by their field name. *)
Definition Permission := string.

Inductive Effect : Type :=
| Toast (msg : string)                       (* Toast.makeText(..).show() *)
| LoadUrl (u : string)                       (* myWebView.loadUrl(u) *)
| GoBack                                     (* myWebView.goBack() *)
| Finish                                     (* finish() *)
| LaunchPermissions (p : list Permission)    (* multiplePermissionLauncher.launch *)
| LaunchBackgroundLocation                   (* backgroundLocationLauncher.launch *)
| LaunchPicker                               (* fileChooserLauncher.launch(intent) *)
| ReceiveValue (cb : Callback) (r : option (list string))
                                             (* cb.onReceiveValue(r) *)
| SplashFade                                 (* splashLayout.animate().alpha(0f)... *)
| LogD (tag msg : string)                    (* android.util.Log.d *)
| Grant (resources : list string)            (* request.grant(resources) *)
| GeoInvoke (origin : option string) (allow retain : bool).
                                             (* callback.invoke(origin, allow, retain) *)

#[export] Instance Effect_eq_dec : EqDecision Effect.
Proof. solve_decision. Defined.

(** Code posted to the main looper with a delay. *)
Inductive Runnable : Type :=
| RunRequestPermissions   (* onCreate: postDelayed({ ... requestFullPermissions() }, 5000) *)
| RunDisarmExit           (* handleOnBackPressed: postDelayed({ flag = false }, 2000) *)
| RunSplashEnd.           (* the fade's onAnimationEnd, 400 ms after its start *)

#[export] Instance Runnable_eq_dec : EqDecision Runnable.
Proof. solve_decision. Defined.

(** What the platform reports to the activity. *)
Record Host : Type := mkHost {
  SDK_INT : Z;                              (* Build.VERSION.SDK_INT *)
  uptimeMillis : Z;                         (* clock of the main looper *)
  isFinishing : bool;
  isDestroyed : bool;
  (* cm.activeNetwork, then cm.getNetworkCapabilities(net), then
     hasCapability(NET_CAPABILITY_INTERNET) *)
  activeNetwork : option (option bool);
  (* checkSelfPermission(ACCESS_BACKGROUND_LOCATION) == PERMISSION_GRANTED *)
  backgroundLocationGranted : bool
}.

(** The two observations the activity makes of its [WebView]. *)
Record WebView : Type := mkWebView {
  url : option string;                      (* myWebView.url *)
  canGoBack : bool                          (* myWebView.canGoBack() *)
}.

Record MainActivity : Type := mkActivity {
  (* generator parameters *)
  LIVE_URL : string;                        (* "{target_url}" *)
  splashConfigured : bool;                  (* [if splash_path:] branch taken *)
  (* platform and views *)
  host : Host;
  myWebView : WebView;
  progressBarVisible : bool;                (* progressBar.visibility == VISIBLE *)
  splashLayoutVisible : bool;               (* splashLayout.visibility == VISIBLE *)
  (* fields of the class *)
  lastLiveUrl : string;
  isOffline : bool;
  doubleBackToExitPressedOnce : bool;
  filePathCallback : option Callback;
  (* delayed messages, ordered by due time *)
  mainLooper : list (Z * Runnable)
}.

Definition LOCAL_URL : string := "file:///android_asset/www/index.html".
Definition ASSET_PREFIX : string := "file:///android_asset/".

(** [s.startsWith("file:///android_asset/")] *)
Definition isAssetUrl (s : string) : bool := String.prefix ASSET_PREFIX s.

(** ** Field updates *)

Definition with_host (h : Host) (a : MainActivity) : MainActivity :=
  mkActivity (LIVE_URL a) (splashConfigured a) h (myWebView a)
    (progressBarVisible a) (splashLayoutVisible a) (lastLiveUrl a) (isOffline a)
    (doubleBackToExitPressedOnce a) (filePathCallback a) (mainLooper a).

Definition with_webview (w : WebView) (a : MainActivity) : MainActivity :=
  mkActivity (LIVE_URL a) (splashConfigured a) (host a) w
    (progressBarVisible a) (splashLayoutVisible a) (lastLiveUrl a) (isOffline a)
    (doubleBackToExitPressedOnce a) (filePathCallback a) (mainLooper a).

Definition with_progress (b : bool) (a : MainActivity) : MainActivity :=
  mkActivity (LIVE_URL a) (splashConfigured a) (host a) (myWebView a)
    b (splashLayoutVisible a) (lastLiveUrl a) (isOffline a)
    (doubleBackToExitPressedOnce a) (filePathCallback a) (mainLooper a).

Definition with_splash (b : bool) (a : MainActivity) : MainActivity :=
  mkActivity (LIVE_URL a) (splashConfigured a) (host a) (myWebView a)
    (progressBarVisible a) b (lastLiveUrl a) (isOffline a)
    (doubleBackToExitPressedOnce a) (filePathCallback a) (mainLooper a).

Definition with_lastLiveUrl (u : string) (a : MainActivity) : MainActivity :=
  mkActivity (LIVE_URL a) (splashConfigured a) (host a) (myWebView a)
    (progressBarVisible a) (splashLayoutVisible a) u (isOffline a)
    (doubleBackToExitPressedOnce a) (filePathCallback a) (mainLooper a).

Definition with_isOffline (b : bool) (a : MainActivity) : MainActivity :=
  mkActivity (LIVE_URL a) (splashConfigured a) (host a) (myWebView a)
    (progressBarVisible a) (splashLayoutVisible a) (lastLiveUrl a) b
    (doubleBackToExitPressedOnce a) (filePathCallback a) (mainLooper a).

Definition with_doubleBack (b : bool) (a : MainActivity) : MainActivity :=
  mkActivity (LIVE_URL a) (splashConfigured a) (host a) (myWebView a)
    (progressBarVisible a) (splashLayoutVisible a) (lastLiveUrl a) (isOffline a)
    b (filePathCallback a) (mainLooper a).

Definition with_filePathCallback (c : option Callback) (a : MainActivity)
  : MainActivity :=
  mkActivity (LIVE_URL a) (splashConfigured a) (host a) (myWebView a)
    (progressBarVisible a) (splashLayoutVisible a) (lastLiveUrl a) (isOffline a)
    (doubleBackToExitPressedOnce a) c (mainLooper a).

Definition with_mainLooper (q : list (Z * Runnable)) (a : MainActivity)
  : MainActivity :=
  mkActivity (LIVE_URL a) (splashConfigured a) (host a) (myWebView a)
    (progressBarVisible a) (splashLayoutVisible a) (lastLiveUrl a) (isOffline a)
    (doubleBackToExitPressedOnce a) (filePathCallback a) q.

Definition host_with_finishing (b : bool) (h : Host) : Host :=
  mkHost (SDK_INT h) (uptimeMillis h) b (isDestroyed h) (activeNetwork h)
    (backgroundLocationGranted h).

Definition host_with_uptime (t : Z) (h : Host) : Host :=
  mkHost (SDK_INT h) t (isFinishing h) (isDestroyed h) (activeNetwork h)
    (backgroundLocationGranted h).

(** ** The handler monad: activity state and a log of framework calls *)

Definition M (A : Type) : Type := MainActivity -> A * MainActivity * list Effect.

Definition ret {A} (x : A) : M A := fun a => (x, a, []).

Definition bind {A B} (c : M A) (k : A -> M B) : M B :=
  fun a =>
    let '(x, a1, e1) := c a in
    let '(y, a2, e2) := k x a1 in
    (y, a2, e1 ++ e2).

Definition read {A} (f : MainActivity -> A) : M A := fun a => (f a, a, []).
Definition update (f : MainActivity -> MainActivity) : M unit :=
  fun a => (tt, f a, []).
Definition emit (e : Effect) : M unit := fun a => (tt, a, [e]).
Definition when (b : bool) (c : M unit) : M unit := if b then c else ret tt.

Declare Scope act_scope.
Delimit Scope act_scope with act.
Notation "x <- c ;; k" := (bind c (fun x => k))
  (at level 100, c at next level, right associativity) : act_scope.
Notation "c ;; k" := (bind c (fun _ => k))
  (at level 100, right associativity) : act_scope.
Open Scope act_scope.

Definition result {A} (r : A * MainActivity * list Effect) : A := fst (fst r).
Definition state {A} (r : A * MainActivity * list Effect) : MainActivity :=
  snd (fst r).
Definition effects {A} (r : A * MainActivity * list Effect) : list Effect :=
  snd r.

(** ** Small helpers of the class *)

(** [showToast]: the toast is shown on the UI thread unless the activity is
    finishing or destroyed. *)
Definition showToast (msg : string) : M unit :=
  fin <- read (fun a => isFinishing (host a)) ;;
  des <- read (fun a => isDestroyed (host a)) ;;
  when (negb fin && negb des) (emit (Toast msg)).

(** [isNetworkAvailable] *)
Definition isNetworkAvailable : M bool :=
  net <- read (fun a => activeNetwork (host a)) ;;
  match net with
  | None => ret false
  | Some None => ret false
  | Some (Some hasInternet) => ret hasInternet
  end.

(** [finish()] of the framework: the activity is finishing from now on. *)
Definition finish : M unit :=
  update (fun a => with_host (host_with_finishing true (host a)) a) ;;
  emit Finish.

(** [myWebView.loadUrl(u)]: the request is issued and [u] is the URL the view
    reports from now on. *)
Definition loadUrl (u : string) : M unit :=
  update (fun a => with_webview (mkWebView (Some u) (canGoBack (myWebView a))) a) ;;
  emit (LoadUrl u).

(** [MessageQueue.enqueueMessage]: a message goes before the first queued
    message that is due strictly later. *)
Fixpoint enqueue (m : Z * Runnable) (q : list (Z * Runnable))
  : list (Z * Runnable) :=
  match q with
  | [] => [m]
  | m' :: q' => if fst m <? fst m' then m :: q else m' :: enqueue m q'
  end.

(** [Handler(Looper.getMainLooper()).postDelayed(r, delay)] *)
Definition postDelayed (r : Runnable) (delay : Z) : M unit :=
  update (fun a =>
    with_mainLooper (enqueue (uptimeMillis (host a) + delay, r) (mainLooper a)) a).

(** [for (x in xs) body(x)] *)
Fixpoint forEach {A} (xs : list A) (body : A -> M unit) : M unit :=
  match xs with
  | [] => ret tt
  | x :: xs' => body x ;; forEach xs' body
  end.

(** ** Permission sequencer *)

(** The list [p] built by [requestFullPermissions] on a host of level [sdk]. *)
Definition permissionBatch (sdk : Z) : list Permission :=
  let p := [ "CAMERA"; "RECORD_AUDIO";
             "READ_CONTACTS"; "WRITE_CONTACTS";
             "CALL_PHONE"; "READ_PHONE_STATE";
             "READ_SMS"; "RECEIVE_SMS"; "SEND_SMS";
             "ACCESS_FINE_LOCATION"; "ACCESS_COARSE_LOCATION" ] in
  if 33 <=? sdk then
    let p := p ++ [ "POST_NOTIFICATIONS" ] in
    let p := p ++ [ "READ_MEDIA_IMAGES" ] in
    let p := p ++ [ "READ_MEDIA_VIDEO" ] in
    let p := p ++ [ "READ_MEDIA_AUDIO" ] in
    if 34 <=? sdk then p ++ [ "READ_MEDIA_VISUAL_USER_SELECTED" ] else p
  else
    let p := p ++ [ "READ_EXTERNAL_STORAGE" ] in
    p ++ [ "WRITE_EXTERNAL_STORAGE" ].

Definition requestFullPermissions : M unit :=
  sdk <- read (fun a => SDK_INT (host a)) ;;
  emit (LaunchPermissions (permissionBatch sdk)).

(** [Build.VERSION_CODES.Q] *)
Definition VERSION_CODES_Q : Z := 29.

Definition requestBackgroundLocation : M unit :=
  sdk <- read (fun a => SDK_INT (host a)) ;;
  when (VERSION_CODES_Q <=? sdk)
    (granted <- read (fun a => backgroundLocationGranted (host a)) ;;
     when (negb granted) (emit LaunchBackgroundLocation)).

(** The result callback of [multiplePermissionLauncher]; [results] is the
    map from permission to grant. *)
Definition multiplePermissionLauncher (results : gmap Permission bool) : M unit :=
  let fineLocationGranted := default false (results !! "ACCESS_FINE_LOCATION") in
  sdk <- read (fun a => SDK_INT (host a)) ;;
  when (fineLocationGranted && (VERSION_CODES_Q <=? sdk)) requestBackgroundLocation.

(** ** File uploader *)

(** [Activity.RESULT_OK] *)
Definition RESULT_OK : Z := -1.

(** An [ActivityResult]: the result code and [data?.dataString]. *)
Record ActivityResult : Type := mkResult {
  resultCode : Z;
  data : option (option string)
}.

(** [filePathCallback?.onReceiveValue(r)] *)
Definition resolveStored (r : option (list string)) : M unit :=
  cb <- read filePathCallback ;;
  match cb with
  | Some c => emit (ReceiveValue c r)
  | None => ret tt
  end.

(** The result callback of [fileChooserLauncher]. *)
Definition fileChooserLauncher (res : ActivityResult) : M unit :=
  (if resultCode res =? RESULT_OK then
     let results :=
       match data res with
       | Some (Some dataString) => Some [dataString]
       | _ => None
       end in
     resolveStored results
   else
     resolveStored None) ;;
  update (with_filePathCallback None).

(** [WebChromeClient.onShowFileChooser]; [launchThrows] tells whether
    [fileChooserLauncher.launch(intent)] raises. *)
Definition onShowFileChooser (cb : option Callback) (launchThrows : bool) : M bool :=
  resolveStored None ;;
  update (with_filePathCallback cb) ;;
  if launchThrows then
    update (with_filePathCallback None) ;;
    ret false
  else
    emit LaunchPicker ;;
    ret true.

(** ** Permission requests of the web content *)

(** [WebChromeClient.onPermissionRequest]; a request is given by its
    [resources]. *)
Definition onPermissionRequest (request : option (list string)) : M unit :=
  let resources := default [] request in
  forEach resources
    (fun resource => emit (LogD "WebAuth" ("Website is requesting: " +:+ resource))) ;;
  match request with
  | Some _ => emit (Grant resources)
  | None => ret tt
  end.

(** [WebChromeClient.onGeolocationPermissionsShowPrompt] *)
Definition onGeolocationPermissionsShowPrompt
  (origin : option string) (callback : option unit) : M unit :=
  match callback with
  | Some _ => emit (GeoInvoke origin true false)
  | None => ret tt
  end.

(** ** Page events and the overlay *)

Definition onPageStarted (u : option string) : M unit :=
  fin <- read (fun a => isFinishing (host a)) ;;
  when (negb fin) (update (with_progress true)) ;;
  match u with
  | Some s => when (negb (isAssetUrl s)) (update (with_lastLiveUrl s))
  | None => ret tt
  end.

(** The statements spliced in for [{kt_splash_logic}].  The end of the fade
    ([onAnimationEnd]) is a message of the looper, due when the duration set
    for the animation has passed since the call. *)
Definition kt_splash_logic : M unit :=
  configured <- read splashConfigured ;;
  if configured then
    update (with_progress false) ;;
    visible <- read splashLayoutVisible ;;
    when visible
      (emit SplashFade ;;
       (* .setDuration(400).setListener(onAnimationEnd = { visibility = GONE }) *)
       postDelayed RunSplashEnd 400)
  else
    update (with_progress false).

Definition onPageFinished (u : option string) : M unit :=
  fin <- read (fun a => isFinishing (host a)) ;;
  when (negb fin) (update (with_progress false)) ;;
  kt_splash_logic.

(** [request] is [request?.url.toString()] before the null test: a null
    request prints as ["null"]. *)
Definition shouldOverrideUrlLoading (request : option string) : M bool :=
  let targetUrl := default "null" request in
  if isAssetUrl targetUrl then ret false
  else
    online <- isNetworkAvailable ;;
    if negb online then
      showToast "No Connection" ;;
      ret true
    else ret false.

(** ** Connectivity *)

(** [loadOnline]: declared by the class, called nowhere in it. *)
Definition loadOnline : M unit :=
  update (with_isOffline false) ;;
  l <- read lastLiveUrl ;;
  loadUrl l ;;
  showToast "Back Online".

(** [loadOffline]: called by [onCreate] only. *)
Definition loadOffline (msg : string) : M unit :=
  update (with_isOffline true) ;;
  currentUrl <- read (fun a => url (myWebView a)) ;;
  match currentUrl with
  | Some u => when (negb (isAssetUrl u)) (update (with_lastLiveUrl u))
  | None => ret tt
  end ;;
  loadUrl LOCAL_URL ;;
  showToast msg.

(** [networkCallback.onAvailable] *)
Definition onAvailable : M unit :=
  fin <- read (fun a => isFinishing (host a)) ;;
  when (negb fin)
    (showToast "Back Online" ;;
     current <- read (fun a => url (myWebView a)) ;;
     when (bool_decide (current = Some LOCAL_URL))
       (l <- read lastLiveUrl ;; loadUrl l)).

(** [networkCallback.onLost] *)
Definition onLost : M unit :=
  fin <- read (fun a => isFinishing (host a)) ;;
  when (negb fin) (showToast "Connection Lost").

(** ** Exit guard *)

Definition handleOnBackPressed : M unit :=
  back <- read (fun a => canGoBack (myWebView a)) ;;
  if back then emit GoBack
  else
    armed <- read doubleBackToExitPressedOnce ;;
    if armed then finish
    else
      update (with_doubleBack true) ;;
      showToast "Press back again to exit" ;;
      postDelayed RunDisarmExit 2000.

(** ** Boot *)

(** The activity as its field initialisers and the layout leave it:
    the progress bar is [gone], the splash overlay visible when there is one. *)
Definition newActivity (target_url : string) (splash : bool) (h : Host)
  : MainActivity :=
  mkActivity target_url splash h (mkWebView None false)
    false splash target_url false false None [].

Definition onCreate : M unit :=
  live <- read LIVE_URL ;;
  update (with_lastLiveUrl live) ;;
  online <- isNetworkAvailable ;;
  (if online then loadUrl live else loadOffline "No Internet Connection") ;;
  postDelayed RunRequestPermissions 5000.

(** ** The main looper *)

Definition runRunnable (r : Runnable) : M unit :=
  match r with
  | RunRequestPermissions =>
      fin <- read (fun a => isFinishing (host a)) ;;
      des <- read (fun a => isDestroyed (host a)) ;;
      when (negb fin && negb des) requestFullPermissions
  | RunDisarmExit => update (with_doubleBack false)
  | RunSplashEnd => update (with_splash false)
  end.

(** A message is due at [t] when its time has come. *)
Definition isDue (t : Z) (m : Z * Runnable) : bool := fst m <=? t.

(** The looper up to time [t]: the messages due by [t] leave the queue and
    run in queue order, then the clock reads [t].  (No runnable of this
    class posts a message, so the queue does not change while they run.) *)
Definition deliver (t : Z) : M unit :=
  q <- read mainLooper ;;
  update (with_mainLooper (List.filter (fun m => negb (isDue t m)) q)) ;;
  forEach (List.filter (isDue t) q) (fun m => runRunnable (snd m)) ;;
  update (fun a => with_host (host_with_uptime t (host a)) a).

(** ** Sessions: what reaches the activity, and when *)

Inductive Event : Type :=
| BackPressed                                        (* OnBackPressedCallback *)
| NetworkAvailable                                   (* networkCallback.onAvailable *)
| NetworkLost                                        (* networkCallback.onLost *)
| PageStarted (u : option string)
| PageFinished (u : option string)
| OverrideUrlLoading (request : option string)
| PermissionsResult (results : gmap Permission bool)
| ShowFileChooser (cb : option Callback) (launchThrows : bool)
| FileChooserResult (res : ActivityResult)
| WebPermissionRequest (request : option (list string))
| GeolocationPrompt (origin : option string) (callback : option unit)
| BridgeClose                                        (* WebAppInterface.close() *)
(* changes on the platform side, seen by later handlers *)
| NetworkState (n : option (option bool))
| WebViewState (w : WebView)
| BackgroundLocationState (granted : bool)
| Destroyed.

Definition host_with_network (n : option (option bool)) (h : Host) : Host :=
  mkHost (SDK_INT h) (uptimeMillis h) (isFinishing h) (isDestroyed h) n
    (backgroundLocationGranted h).

Definition host_with_backgroundLocation (b : bool) (h : Host) : Host :=
  mkHost (SDK_INT h) (uptimeMillis h) (isFinishing h) (isDestroyed h)
    (activeNetwork h) b.

Definition host_with_destroyed (b : bool) (h : Host) : Host :=
  mkHost (SDK_INT h) (uptimeMillis h) (isFinishing h) b (activeNetwork h)
    (backgroundLocationGranted h).

Definition discard {A} (c : M A) : M unit := _ <- c ;; ret tt.

Definition dispatch (e : Event) : M unit :=
  match e with
  | BackPressed => handleOnBackPressed
  | NetworkAvailable => onAvailable
  | NetworkLost => onLost
  | PageStarted u => onPageStarted u
  | PageFinished u => onPageFinished u
  | OverrideUrlLoading request => discard (shouldOverrideUrlLoading request)
  | PermissionsResult results => multiplePermissionLauncher results
  | ShowFileChooser cb launchThrows => discard (onShowFileChooser cb launchThrows)
  | FileChooserResult res => fileChooserLauncher res
  | WebPermissionRequest request => onPermissionRequest request
  | GeolocationPrompt origin callback =>
      onGeolocationPermissionsShowPrompt origin callback
  | BridgeClose => finish
  | NetworkState n =>
      update (fun a => with_host (host_with_network n (host a)) a)
  | WebViewState w => update (with_webview w)
  | BackgroundLocationState b =>
      update (fun a => with_host (host_with_backgroundLocation b (host a)) a)
  | Destroyed =>
      update (fun a => with_host (host_with_destroyed true (host a)) a)
  end.

(** An event stamped [t] is handled after the messages due by [t]. *)
Definition step (te : Z * Event) : M unit :=
  deliver (fst te) ;; dispatch (snd te).

Fixpoint runTrace (tr : list (Z * Event)) : M unit :=
  match tr with
  | [] => ret tt
  | te :: tr' => step te ;; runTrace tr'
  end.

(** A session: boot at the host's clock, then the trace. *)
Definition session (target_url : string) (splash : bool) (h : Host)
  (tr : list (Z * Event)) : unit * MainActivity * list Effect :=
  (onCreate ;; runTrace tr) (newActivity target_url splash h).

(** Stamps do not run backwards and start at or after [t0]. *)
Fixpoint timed (t0 : Z) (tr : list (Z * Event)) : Prop :=
  match tr with
  | [] => True
  | (t, _) :: tr' => t0 <= t /\ timed t tr'
  end.

(** ** Observations on effect logs *)

Definition loads (es : list Effect) : list string :=
  omap (fun e => match e with LoadUrl u => Some u | _ => None end) es.

Definition toasts (es : list Effect) : list string :=
  omap (fun e => match e with Toast m => Some m | _ => None end) es.

(** The debug lines [onPermissionRequest] writes for [resources]. *)
Definition requestLog (resources : list string) : list Effect :=
  map (fun r => LogD "WebAuth" ("Website is requesting: " +:+ r)) resources.

Definition isPermissionLaunch (e : Effect) : bool :=
  match e with LaunchPermissions _ => true | _ => false end.

Definition isFade (e : Effect) : bool :=
  match e with SplashFade => true | _ => false end.

Definition isFinish (e : Effect) : bool :=
  match e with Finish => true | _ => false end.

(** The permission batches launched in a log. *)
Definition launched (es : list Effect) : list Effect :=
  List.filter isPermissionLaunch es.

(** How often callback [cb] received a value in a log. *)
Definition resolutions (cb : Callback) (es : list Effect) : nat :=
  List.length
    (List.filter
       (fun e => match e with
                 | ReceiveValue c _ => bool_decide (c = cb)
                 | _ => false
                 end) es).

(** The file-chooser requests of a trace: the callback handed over and
    whether launching the picker raised. *)
Definition requests (tr : list (Z * Event)) : list (Callback * bool) :=
  omap (fun te => match snd te with
                  | ShowFileChooser (Some cb) launchThrows =>
                      Some (cb, launchThrows)
                  | _ => None
                  end) tr.

Definition isChooserEvent (e : Event) : bool :=
  match e with
  | ShowFileChooser _ _ | FileChooserResult _ => true
  | _ => false
  end.

Definition isBack (e : Event) : bool :=
  match e with BackPressed => true | _ => false end.

(** Due times of the queued messages that carry runnable [r]. *)
Definition carries (r : Runnable) (m : Z * Runnable) : bool :=
  bool_decide (snd m = r).

Definition dueOf (r : Runnable) (q : list (Z * Runnable)) : list Z :=
  map fst (List.filter (carries r) q).

Definition alive (a : MainActivity) : Prop :=
  isFinishing (host a) = false /\ isDestroyed (host a) = false.

Definition aliveb (a : MainActivity) : bool :=
  negb (isFinishing (host a)) && negb (isDestroyed (host a)).

(** What [showToast msg] shows on [a]. *)
Definition toastOn (a : MainActivity) (msg : string) : list Effect :=
  if aliveb a then [Toast msg] else [].

(** Running a list of due messages, in closed form: only the permission
    runnable has an effect, and only the two flags can change. *)
Definition afterRunnables (ms : list (Z * Runnable)) (a : MainActivity)
  : MainActivity :=
  with_splash
    (if existsb (carries RunSplashEnd) ms then false else splashLayoutVisible a)
    (with_doubleBack
       (if existsb (carries RunDisarmExit) ms then false
        else doubleBackToExitPressedOnce a) a).

Definition effectsOfRunnables (ms : list (Z * Runnable)) (a : MainActivity)
  : list Effect :=
  if aliveb a
  then map (fun _ => LaunchPermissions (permissionBatch (SDK_INT (host a))))
         (List.filter (carries RunRequestPermissions) ms)
  else [].

(** The stamp of the last event of a trace that starts at [t0]. *)
Fixpoint lastStamp (t0 : Z) (tr : list (Z * Event)) : Z :=
  match tr with
  | [] => t0
  | (t, _) :: tr' => lastStamp t tr'
  end.

(** The permission timer of a session booted at [t0] on a host of level
    [sdk]: either the message is still queued for [t0 + 5000] and nothing was
    launched, or it has run, and then the batch was launched once unless the
    activity was finishing or destroyed by then. *)
Definition permissionInv (sdk t0 : Z) (a : MainActivity) (es : list Effect)
  : Prop :=
  SDK_INT (host a) = sdk
  /\ ((dueOf RunRequestPermissions (mainLooper a) = [t0 + 5000]
       /\ launched es = []
       /\ uptimeMillis (host a) < t0 + 5000)
      \/ (dueOf RunRequestPermissions (mainLooper a) = []
          /\ t0 + 5000 <= uptimeMillis (host a)
          /\ (launched es = [LaunchPermissions (permissionBatch sdk)]
              \/ (launched es = [] /\ aliveb a = false)))).

(** The exit guard after the events [pre]: the flag is down and no disarm
    message is queued, or it is up, armed by a back-action of [pre] less than
    2000 ms ago, with its one disarm message queued for the end of the
    window. *)
Definition exitInv (pre : list (Z * Event)) (a : MainActivity) : Prop :=
  (doubleBackToExitPressedOnce a = false
   /\ dueOf RunDisarmExit (mainLooper a) = [])
  \/ (doubleBackToExitPressedOnce a = true
      /\ exists t' : Z,
           In (t', BackPressed) pre
           /\ dueOf RunDisarmExit (mainLooper a) = [t' + 2000]
           /\ t' <= uptimeMillis (host a) < t' + 2000).

(** The file chooser after the requests [reqs]: the stored callback is a
    request whose picker was launched; a request has received no value if its
    launch raised or it is the stored one, and exactly one value otherwise;
    no other callback has received anything. *)
Definition chooserInv (reqs : list (Callback * bool)) (a : MainActivity)
  (es : list Effect) : Prop :=
  (forall cb, filePathCallback a = Some cb -> In (cb, false) reqs)
  /\ (forall cb thrown,
        In (cb, thrown) reqs ->
        resolutions cb es =
        if thrown then 0%nat
        else if decide (filePathCallback a = Some cb) then 0%nat else 1%nat)
  /\ (forall cb, ~ In cb (map fst reqs) -> resolutions cb es = 0%nat).

(** The requests of [reqs] that are pending in a log: the picker was
    launched and the callback has not received a value. *)
Definition pending (reqs : list (Callback * bool)) (es : list Effect)
  : list (Callback * bool) :=
  List.filter (fun q => negb (snd q) && (resolutions (fst q) es =? 0)%nat) reqs.

(** ** Reasoning about handlers *)

Ltac unfold_handlers :=
  cbv [ result state effects discard
        bind ret read update emit when
        showToast isNetworkAvailable finish loadUrl postDelayed
        requestFullPermissions requestBackgroundLocation
        multiplePermissionLauncher resolveStored fileChooserLauncher
        onShowFileChooser onGeolocationPermissionsShowPrompt
        onPageStarted kt_splash_logic onPageFinished shouldOverrideUrlLoading
        loadOnline loadOffline onAvailable onLost handleOnBackPressed
        onCreate runRunnable dispatch negb andb ].

(** Case analysis on the innermost tests of an unfolded handler. *)
Ltac split_cases :=
  repeat (match goal with
          | |- context [ match ?x with _ => _ end ] =>
              lazymatch x with
              | context [ match _ with _ => _ end ] => fail
              | _ => destruct x eqn:?
              end
          end; cbn in *).

(** Evaluates [carries r m] on a message whose runnable is known. *)
Ltac eval_carries :=
  repeat match goal with
  | |- context [ carries ?r (?d, ?r') ] =>
      change (carries r (d, r')) with (bool_decide (r' = r));
      first [ rewrite (bool_decide_eq_true_2 (r' = r)) by reflexivity
            | rewrite (bool_decide_eq_false_2 (r' = r)) by discriminate ]
  end.

(** Membership in a closed list, by evaluation. *)
Ltac decide_elem :=
  match goal with
  | |- ?x ∉ ?l => apply (bool_decide_eq_false_1 (x ∈ l)); reflexivity
  | |- ?x ∈ ?l => apply (bool_decide_eq_true_1 (x ∈ l)); reflexivity
  | |- ?x ∈ ?l -> False => apply (bool_decide_eq_false_1 (x ∈ l)); reflexivity
  end.

Ltac handler_cases :=
  unfold_handlers; split_cases;
  repeat match goal with b : bool |- _ => destruct b end;
  cbn in *; try solve [intuition congruence].

(** ** The navigation states of the specification *)

(** The class keeps no navigation-state field: the five states are read off
    the document the web view reports and the progress indicator, which is
    visible from [onPageStarted] to [onPageFinished]. *)
Inductive NavigationState : Type :=
| Booting | LoadingRemote | ContentReady | LoadingFallback | FallbackReady.

Definition navigationState (a : MainActivity) : NavigationState :=
  match url (myWebView a) with
  | None => Booting
  | Some u =>
      if isAssetUrl u
      then (if progressBarVisible a then LoadingFallback else FallbackReady)
      else (if progressBarVisible a then LoadingRemote else ContentReady)
  end.

(** The most recent connectivity event of a trace: [Some true] for
    available, [Some false] for lost. *)
Fixpoint lastConnectivity (tr : list (Z * Event)) : option bool :=
  match tr with
  | [] => None
  | (_, e) :: tr' =>
      match lastConnectivity tr' with
      | Some b => Some b
      | None =>
          match e with
          | NetworkAvailable => Some true
          | NetworkLost => Some false
          | _ => None
          end
      end
  end.

(** ** The bridge as declared on the two hosts *)

Module Bridge.

Import Stdlib.Strings.Ascii.

(** Kinds of a bridge argument: Kotlin [Long], [String], [Boolean]. *)
Inductive Kind : Type := KNumber | KString | KBoolean.

#[global] Instance Kind_eq_dec : EqDecision Kind.
Proof. solve_decision. Defined.

(** The [@JavascriptInterface] methods of [WebAppInterface], installed as
    [Native]: name and parameter kinds. *)
Definition WebAppInterface : list (string * list Kind) :=
  [ ("close", []); ("getPackageName", []); ("reload", []);
    ("clearCache", []); ("enableSecureScreen", []);
    ("disableSecureScreen", []); ("getDeviceInfo", []);
    ("loginBiometric", []); ("getBatteryLevel", []); ("isCharging", []);
    ("isPowerSaveMode", []); ("copyToClipboard", [KString]);
    ("openExternalBrowser", [KString]); ("vibrate", [KNumber]);
    ("startNFCScan", []); ("stopNFCScan", []); ("onScreen", [KBoolean]);
    ("flashlight", [KBoolean]); ("bluetooth", [KBoolean]);
    ("notification", [KString; KString]) ].

(** Android declares [name] for [args]: an interface method of that name
    with those parameters. *)
Definition android_declares (name : string) (args : list Kind) : bool :=
  bool_decide ((name, args) ∈ WebAppInterface).

(** [bridge_js] of the iOS generator, the script handed to [WKUserScript]
    for injection at document start.  The literal is a plain string, not an
    f-string: Python emits it character by character, and a doubled brace
    stays doubled. *)
Definition bridge_js : string := "
    var Native = {{
        post: function(name, data) {{
            if (window.webkit && window.webkit.messageHandlers && window.webkit.messageHandlers[name]) {{
                window.webkit.messageHandlers[name].postMessage(data);
            }}
        }},
        vibrate: function(ms) {{ this.post('vibrate', ms); }},
        loginBiometric: function() {{ this.post('loginBiometric', null); }},
        finishApp: function() {{ this.post('finishApp', null); }},
        copyToClipboard: function(text) {{ this.post('copyToClipboard', text); }},
        getBatteryStatus: function() {{ this.post('getBatteryStatus', null); }},
        flashlight: function(on) {{ this.post('flashlight', on); }}
    }};
    window.Native = Native;
    ".

(** White space between the tokens of a script: space, tab, line feed,
    carriage return. *)
Definition isBlank (c : ascii) : bool :=
  Strings.Ascii.eqb c " " || Strings.Ascii.eqb c "009"
  || Strings.Ascii.eqb c "010" || Strings.Ascii.eqb c "013".

Fixpoint skip_blank (s : string) : string :=
  match s with
  | String c s' => if isBlank c then skip_blank s' else s
  | EmptyString => EmptyString
  end.

(** Every brace of [s] is one of a doubled pair: the way the template of an
    f-string writes a brace that is to come out single. *)
Fixpoint paired_braces (s : string) : bool :=
  match s with
  | EmptyString => true
  | String c s' =>
      if Strings.Ascii.eqb c "{" || Strings.Ascii.eqb c "}" then
        match s' with
        | String c' s'' => Strings.Ascii.eqb c' c && paired_braces s''
        | EmptyString => false
        end
      else paired_braces s'
  end.

End Bridge.

(** ** Further handlers and observations *)

(** [WebViewClient.onReceivedError]; a request is given by
    [request.isForMainFrame] and [request.url.toString()]. *)
Definition onReceivedError (request : option (bool * string)) : M unit :=
  match request with
  | Some (true, failingUrl) =>
      online <- isNetworkAvailable ;;
      when (negb (String.eqb failingUrl LOCAL_URL) && negb online)
        (showToast "Unable to load. Waiting for connection...")
  | _ => ret tt
  end.

Definition isPageStarted (e : Event) : bool :=
  match e with PageStarted _ => true | _ => false end.

Definition isPageFinished (e : Event) : bool :=
  match e with PageFinished _ => true | _ => false end.

(** A page start that moves [lastLiveUrl]: one for a URL outside the
    assets. *)
Definition startsLivePage (e : Event) : bool :=
  match e with
  | PageStarted (Some u) => negb (isAssetUrl u)
  | _ => false
  end.

(** Events after which the web view still shows what it showed and the
    activity is not finishing: no back-action, no bridge [close()], no
    connectivity-available event, no navigation of the view, and page starts
    only inside the assets. *)
Definition keepsDocument (e : Event) : bool :=
  match e with
  | BackPressed | NetworkAvailable | BridgeClose | WebViewState _ => false
  | PageStarted (Some u) => isAssetUrl u
  | _ => true
  end.

Definition isBackgroundLaunch (e : Effect) : bool :=
  match e with LaunchBackgroundLocation => true | _ => false end.

(** A permission result that grants fine location. *)
Definition grantsFineLocation (e : Event) : bool :=
  match e with
  | PermissionsResult results =>
      default false (results !! "ACCESS_FINE_LOCATION")
  | _ => false
  end.

(** ** Notifications *)

Module Notifications.

(** Kotlin's [Long.toInt()]: the low 32 bits, read as a signed number. *)
Definition toInt (x : Z) : Z := (x + 2 ^ 31) mod 2 ^ 32 - 2 ^ 31.

(** [Build.VERSION_CODES.O] *)
Definition VERSION_CODES_O : Z := 26.

(** The [NotificationManager] of the app: the channels created and the
    notifications posted, by id; [notify(id, n)] puts [n] in the place of a
    notification posted under the same id. *)
Record NotificationManager : Type := mkManager {
  channels : gset string;
  posted : gmap Z (string * string)
}.

Definition createNotificationChannel (channelId : string)
  (nm : NotificationManager) : NotificationManager :=
  mkManager ({[ channelId ]} ∪ channels nm) (posted nm).

Definition notify (id : Z) (n : string * string) (nm : NotificationManager)
  : NotificationManager :=
  mkManager (channels nm) (<[ id := n ]> (posted nm)).

(** [showNotification(title, message)] on a host of level [sdk] when
    [System.currentTimeMillis()] is [now]. *)
Definition showNotification (sdk now : Z) (title message : string)
  (nm : NotificationManager) : NotificationManager :=
  let channelId := "default_channel" in
  let nm1 := if VERSION_CODES_O <=? sdk
             then createNotificationChannel channelId nm else nm in
  notify (toInt now) (title, message) nm1.

End Notifications.

(** ** The generator: where the activity's source file goes *)

Module Generator.

Import Stdlib.Strings.Ascii.

(** The generator's strings are Python [str] values, read here as their
    UTF-8 bytes; the characters looked for below are ASCII, and an ASCII
    byte occurs in UTF-8 text only as that character. *)

(** [s.replace(old, new)] for one-character [old] and [new]. *)
Fixpoint replace (old new : ascii) (s : string) : string :=
  match s with
  | EmptyString => EmptyString
  | String c s' =>
      String (if Strings.Ascii.eqb c old then new else c) (replace old new s')
  end.

(** [package_path = package_name.replace('.', '/')] *)
Definition package_path (package_name : string) : string :=
  replace "." "/" package_name.

(** The first piece of [s] before [sep] and the pieces after it. *)
Fixpoint pieces (sep : ascii) (s : string) : string * list string :=
  match s with
  | EmptyString => (EmptyString, [])
  | String c s' =>
      let (w, ws) := pieces sep s' in
      if Strings.Ascii.eqb c sep
      then (EmptyString, w :: ws)
      else (String c w, ws)
  end.

(** [s.split(sep)]: the pieces of [s] between the occurrences of [sep],
    empty ones included. *)
Definition split (sep : ascii) (s : string) : list string :=
  let (w, ws) := pieces sep s in w :: ws.

Fixpoint contains (c : ascii) (s : string) : bool :=
  match s with
  | EmptyString => false
  | String c' s' => Strings.Ascii.eqb c' c || contains c s'
  end.

(** The components [pathlib] keeps of the text of a relative POSIX path
    ([PurePosixPath(text).parts]): the pieces between slashes, without the
    empty ones (doubled or trailing slashes) and without [.]. *)
Definition parts (text : string) : list string :=
  List.filter (fun c => negb (String.eqb c "") && negb (String.eqb c "."))
    (split "/" text).

(** [java_dir = src_main / f"java/{package_path}"]: its components below
    [src_main]. *)
Definition java_dir (package_name : string) : list string :=
  parts ("java/" ++ package_path package_name).

End Generator.

(** ** The generator: the activity's source text *)

Module Template.

Import Stdlib.Strings.Ascii.

(** The [import] lines of the emitted [MainActivity.kt], each by what it
    imports: the lines written in the template, and the block [kt_imports]
    spliced in after them. *)
Definition template_imports : list string :=
  [ "android.Manifest"; "android.app.DownloadManager";
    "android.content.Context"; "android.content.Intent";
    "android.content.pm.PackageManager"; "android.graphics.Bitmap";
    "android.graphics.Color"; "android.net.*"; "android.net.Uri";
    "android.os.Bundle"; "android.os.Environment"; "android.view.View";
    "android.webkit.*"; "android.widget.ProgressBar"; "android.widget.Toast";
    "androidx.activity.OnBackPressedCallback";
    "androidx.activity.result.contract.ActivityResultContracts";
    "androidx.appcompat.app.AppCompatActivity";
    "androidx.core.content.ContextCompat" ].

Definition kt_imports : list string :=
  [ "android.os.Build"; "android.os.Handler"; "android.os.Looper";
    "android.provider.Settings"; "android.view.WindowManager";
    "androidx.biometric.BiometricPrompt"; "androidx.core.app.NotificationCompat";
    "android.app.NotificationChannel"; "android.app.NotificationManager";
    "android.os.Vibrator"; "android.os.VibratorManager";
    "android.os.VibrationEffect"; "android.content.ClipboardManager";
    "android.content.ClipData"; "android.os.BatteryManager";
    "android.os.PowerManager"; "androidx.biometric.BiometricManager";
    "android.animation.Animator"; "android.animation.AnimatorListenerAdapter";
    "android.hardware.camera2.CameraManager";
    "android.bluetooth.BluetoothAdapter"; "android.bluetooth.BluetoothManager";
    "android.webkit.PermissionRequest" ].

Definition imports : list string := template_imports ++ kt_imports.

(** [kt_splash_var]: the field declaration spliced into the class; empty
    unless a splash image was found ([if splash_path:]). *)
Definition kt_splash_var (splash_path : option string) : string :=
  match splash_path with
  | Some _ => "private lateinit var splashLayout: LinearLayout"
  | None => ""
  end.

(** The simple name an import line brings into scope; [*] for a star
    import. *)
Definition imported_name (line : string) : string :=
  List.last (Generator.split "." line) "".

Definition star_imports : list string :=
  List.filter (fun line => String.eqb (imported_name line) "*") imports.

(** Some import line brings the class [name] into scope by name. *)
Definition imports_class (name : string) : bool :=
  existsb (fun line => String.eqb (imported_name line) name) imports.

End Template.

(** * Properties *)

(** ** Helper lemmas on handlers *)

Lemma forEach_emit {A} (f : A -> Effect) (xs : list A) (a : MainActivity) :
  forEach xs (fun x => emit (f x)) a = (tt, a, map f xs).
Proof.
  induction xs as [|x xs IH]; [reflexivity|].
  cbn [forEach]. unfold bind at 1. unfold emit at 1. now rewrite IH.
Qed.

Lemma toastOn_alive (a : MainActivity) (msg : string) :
  alive a -> toastOn a msg = [Toast msg].
Proof. intros [Hf Hd]. unfold toastOn, aliveb. now rewrite Hf, Hd. Qed.

Lemma loads_app (es es' : list Effect) : loads (es ++ es') = loads es ++ loads es'.
Proof. apply omap_app. Qed.

Lemma loads_toastOn (a : MainActivity) (msg : string) : loads (toastOn a msg) = [].
Proof. unfold toastOn. now destruct (aliveb a). Qed.

(** Closed forms of the connectivity handlers. *)
Lemma onAvailable_eq (a : MainActivity) :
  onAvailable a =
  if isFinishing (host a) then (tt, a, [])
  else if bool_decide (url (myWebView a) = Some LOCAL_URL)
       then (tt,
             with_webview (mkWebView (Some (lastLiveUrl a))
                             (canGoBack (myWebView a))) a,
             toastOn a "Back Online" ++ [LoadUrl (lastLiveUrl a)])
       else (tt, a, toastOn a "Back Online" ++ []).
Proof. unfold toastOn, aliveb. handler_cases. Qed.

Lemma onLost_eq (a : MainActivity) :
  onLost a =
  (tt, a, if isFinishing (host a) then [] else toastOn a "Connection Lost").
Proof. unfold toastOn, aliveb. handler_cases. Qed.

Lemma loadOffline_eq (msg : string) (a : MainActivity) :
  let captured :=
    match url (myWebView a) with
    | Some u => if isAssetUrl u then lastLiveUrl a else u
    | None => lastLiveUrl a
    end in
  loadOffline msg a =
  (tt,
   with_webview (mkWebView (Some LOCAL_URL) (canGoBack (myWebView a)))
     (with_lastLiveUrl captured (with_isOffline true a)),
   LoadUrl LOCAL_URL :: toastOn a msg).
Proof. unfold toastOn, aliveb. destruct a. handler_cases. Qed.

(** ** Web-content permission requests *)

Lemma onPermissionRequest_eq (a : MainActivity) (request : option (list string)) :
  onPermissionRequest request a =
  match request with
  | Some resources => (tt, a, requestLog resources ++ [Grant resources])
  | None => (tt, a, [])
  end.
Proof.
  unfold onPermissionRequest, requestLog.
  destruct request as [resources|]; cbn [default]; unfold bind;
    rewrite forEach_emit; reflexivity.
Qed.

Lemma loads_requestLog (resources : list string) : loads (requestLog resources) = [].
Proof. induction resources as [|r rs IH]; [reflexivity|exact IH]. Qed.

(** C10. A permission request of the web content is answered by granting
    exactly the requested resources, and a geolocation prompt by allowing
    the origin: no effect of either handler is a prompt or a launcher, the
    activity is left as it was, and the answer is the same whatever the
    platform reports (in particular whatever it has granted to the app). *)
Theorem web_content_requests_granted_unconditionally :
  forall (a : MainActivity) (resources : list string) (origin : option string),
    onPermissionRequest (Some resources) a =
      (tt, a, requestLog resources ++ [Grant resources])
    /\ onGeolocationPermissionsShowPrompt origin (Some tt) a =
      (tt, a, [GeoInvoke origin true false])
    /\ (forall a' : MainActivity,
          effects (onPermissionRequest (Some resources) a') =
          effects (onPermissionRequest (Some resources) a)
          /\ effects (onGeolocationPermissionsShowPrompt origin (Some tt) a') =
             effects (onGeolocationPermissionsShowPrompt origin (Some tt) a)).
Proof.
  intros a resources origin.
  split; [apply onPermissionRequest_eq|]. split; [reflexivity|].
  intros a'. rewrite !onPermissionRequest_eq. split; reflexivity.
Qed.

(** ** The navigation guard *)

(** C9, counterexample.  A bundled page other than the fallback document is
    let through without connectivity, and no notice is shown. *)
Lemma override_allows_other_asset_offline :
  let a := newActivity "https://example.org/" false
             (mkHost 34 0 false false None false) in
  let target := "file:///android_asset/www/about.html" in
  target <> LOCAL_URL
  /\ result (isNetworkAvailable a) = false
  /\ result (shouldOverrideUrlLoading (Some target) a) = false
  /\ effects (shouldOverrideUrlLoading (Some target) a) = [].
Proof. cbv zeta. split; [discriminate|]. repeat split. Qed.

(** C9, amended.  A target under the asset prefix [file:///android_asset/]
    (the fallback document is one) is always let through; any other target
    is stopped exactly when [isNetworkAvailable] is false at the request,
    and then [showToast "No Connection"] runs, which shows the notice on a
    live activity; a target that is let through produces no effect.  The
    activity state is never changed. *)
Theorem shouldOverrideUrlLoading_policy :
  forall (a : MainActivity) (request : option string),
    let target := default "null" request in
    let r := shouldOverrideUrlLoading request a in
    state r = a
    /\ isAssetUrl LOCAL_URL = true
    /\ (isAssetUrl target = true -> result r = false /\ effects r = [])
    /\ (isAssetUrl target = false ->
          (result r = true <-> result (isNetworkAvailable a) = false)
          /\ (result r = true ->
                effects r = toastOn a "No Connection"
                /\ (alive a -> effects r = [Toast "No Connection"]))
          /\ (result r = false -> effects r = [])).
Proof.
  intros a request target r. subst r.
  unfold shouldOverrideUrlLoading. fold target.
  destruct (isAssetUrl target) eqn:Hasset.
  - repeat split; try reflexivity; discriminate.
  - split; [|split; [reflexivity|split; [discriminate|]]].
    + handler_cases.
    + intros _. unfold toastOn, aliveb. split; [|split].
      * handler_cases.
      * intros Hr. split.
        -- revert Hr. handler_cases.
        -- intros [Hf Hd]. revert Hr. handler_cases.
      * handler_cases.
Qed.

(** ** Background location *)

Lemma multiplePermissionLauncher_effects
  (a : MainActivity) (results : gmap Permission bool) :
  multiplePermissionLauncher results a =
  (tt, a,
   if default false (results !! "ACCESS_FINE_LOCATION")
      && (VERSION_CODES_Q <=? SDK_INT (host a))
      && negb (backgroundLocationGranted (host a))
   then [LaunchBackgroundLocation] else []).
Proof.
  unfold multiplePermissionLauncher.
  destruct (default false (results !! "ACCESS_FINE_LOCATION")); handler_cases.
Qed.

(** C6, counterexample.  Fine location granted on an API-30 host that
    already holds background location: no follow-up request is issued. *)
Lemma no_followup_when_background_already_granted :
  let a := newActivity "https://example.org/" false
             (mkHost 30 0 false false (Some (Some true)) true) in
  let results : gmap Permission bool :=
    {[ "ACCESS_FINE_LOCATION" := true ]} in
  results !! "ACCESS_FINE_LOCATION" = Some true
  /\ VERSION_CODES_Q <= SDK_INT (host a)
  /\ effects (multiplePermissionLauncher results a) = [].
Proof. cbv zeta. split; [reflexivity|]. split; [discriminate|reflexivity]. Qed.

(** The test is on the fine-location entry alone: a grant of coarse
    location without fine location issues no follow-up either. *)
Lemma no_followup_on_coarse_only :
  let a := newActivity "https://example.org/" false
             (mkHost 30 0 false false (Some (Some true)) false) in
  let results : gmap Permission bool :=
    {[ "ACCESS_COARSE_LOCATION" := true; "ACCESS_FINE_LOCATION" := false ]} in
  effects (multiplePermissionLauncher results a) = [].
Proof. reflexivity. Qed.

(** C6, amended.  On completion of the batch exactly one follow-up request
    for background location is issued if and only if [ACCESS_FINE_LOCATION]
    is granted in the result, the host level is at least 29 and the app does
    not hold background location yet; in every other case nothing is issued.
    The activity state is unchanged. *)
Theorem background_followup_iff :
  forall (a : MainActivity) (results : gmap Permission bool),
    let r := multiplePermissionLauncher results a in
    let due :=
      results !! "ACCESS_FINE_LOCATION" = Some true
      /\ VERSION_CODES_Q <= SDK_INT (host a)
      /\ backgroundLocationGranted (host a) = false in
    state r = a
    /\ (effects r = [LaunchBackgroundLocation] <-> due)
    /\ (effects r = [] <-> ~ due).
Proof.
  intros a results r due. subst r due.
  rewrite multiplePermissionLauncher_effects. cbn [state effects fst snd].
  split; [reflexivity|].
  destruct (results !! "ACCESS_FINE_LOCATION") as [[|]|] eqn:Hfine;
    cbn [default andb];
    destruct (Z.leb_spec VERSION_CODES_Q (SDK_INT (host a)));
    destruct (backgroundLocationGranted (host a)); cbn;
    intuition (congruence || lia).
Qed.

(** ** Connectivity events *)

(** C4.  On a connectivity-available event of an activity that is not
    finishing: if the web view shows the fallback document [LOCAL_URL], the
    one URL loaded is [lastLiveUrl]; for any other displayed document nothing
    is loaded and the activity state is untouched.  So a load happens
    exactly on the fallback document.  [lastLiveUrl] is the configured
    remote URL when the activity comes out of [onCreate]. *)
Theorem onAvailable_reloads_only_from_fallback :
  forall a : MainActivity,
    isFinishing (host a) = false ->
    let r := onAvailable a in
    (url (myWebView a) = Some LOCAL_URL ->
       loads (effects r) = [lastLiveUrl a]
       /\ url (myWebView (state r)) = Some (lastLiveUrl a)
       /\ lastLiveUrl (state r) = lastLiveUrl a)
    /\ (url (myWebView a) <> Some LOCAL_URL ->
          loads (effects r) = [] /\ state r = a)
    /\ (loads (effects r) <> [] <-> url (myWebView a) = Some LOCAL_URL)
    /\ (forall target splash h,
          lastLiveUrl (state (onCreate (newActivity target splash h))) = target).
Proof.
  intros a Hfin r. subst r.
  assert (Hboot : forall target splash h,
            lastLiveUrl (state (onCreate (newActivity target splash h))) = target).
  { intros target splash h. unfold newActivity. handler_cases. }
  rewrite onAvailable_eq, Hfin.
  destruct (decide (url (myWebView a) = Some LOCAL_URL)) as [Hloc|Hloc].
  - rewrite bool_decide_eq_true_2 by assumption.
    cbn [state effects fst snd].
    rewrite loads_app, loads_toastOn. cbn.
    repeat split; auto; try congruence.
  - rewrite bool_decide_eq_false_2 by assumption.
    cbn [state effects fst snd].
    rewrite loads_app, loads_toastOn. cbn.
    repeat split; auto; try congruence.
Qed.

Lemma onAvailable_reloads_only_from_fallback_witness :
  let a := state (onCreate (newActivity "https://example.org/" false
                              (mkHost 34 0 false false None false))) in
  isFinishing (host a) = false
  /\ url (myWebView a) = Some LOCAL_URL
  /\ loads (effects (onAvailable a)) = ["https://example.org/"].
Proof.
  cbv zeta. split; [reflexivity|]. split; [reflexivity|].
  pose proof (onAvailable_reloads_only_from_fallback
                (state (onCreate (newActivity "https://example.org/" false
                                    (mkHost 34 0 false false None false))))
                eq_refl) as H.
  cbv zeta in H. destruct H as (H & _). destruct (H eq_refl) as (Hl & _).
  exact Hl.
Defined.

(** The scenario of a user who moved on to a third-party page before the
    connection dropped: the restored connection shows its notice and loads
    nothing, the page stays. *)
Example restored_connectivity_keeps_third_party_page :
  let live := "https://example.org/" in
  let other := "https://third.party/page" in
  let h := mkHost 34 0 false false (Some (Some true)) false in
  let tr := [ (100, PageStarted (Some live)); (900, PageFinished (Some live));
              (2000, WebViewState (mkWebView (Some other) true));
              (2000, PageStarted (Some other));
              (2600, PageFinished (Some other));
              (3000, NetworkState None); (3000, NetworkLost);
              (9000, NetworkState (Some (Some true)));
              (9000, NetworkAvailable) ] in
  let r := session live false h tr in
  url (myWebView (state r)) = Some other
  /\ loads (effects r) = [live]
  /\ toasts (effects r) = ["Connection Lost"; "Back Online"]
  /\ lastLiveUrl (state r) = other.
Proof. cbv zeta. repeat split. Qed.

(** C2, counterexample.  Boot with connectivity, the remote page starts and
    finishes loading, then connectivity is lost: the lost event is the most
    recent connectivity event, yet the web view still shows the remote page
    with the load finished (ContentReady), and the fallback document was
    never loaded. *)
Lemma content_ready_after_connectivity_lost :
  let live := "https://example.org/" in
  let h := mkHost 34 0 false false (Some (Some true)) false in
  let tr := [ (100, PageStarted (Some live)); (900, PageFinished (Some live));
              (3000, NetworkState None); (3000, NetworkLost) ] in
  let r := session live false h tr in
  lastConnectivity tr = Some false
  /\ navigationState (state r) = ContentReady
  /\ url (myWebView (state r)) = Some live
  /\ loads (effects r) = [live]
  /\ toasts (effects r) = ["Connection Lost"].
Proof. cbv zeta. repeat split. Qed.

(** C2, amended.  The connectivity-lost event only shows the notice
    "Connection Lost" (nothing at all on a finishing activity): it loads
    nothing and leaves the activity state, hence the displayed document,
    [lastLiveUrl] and the navigation state, as they were.  The switch to the
    fallback document is [loadOffline]: it captures the displayed URL into
    [lastLiveUrl] unless that URL is under the asset prefix, then loads
    [LOCAL_URL]; [onCreate] runs it when it finds no connectivity, and no
    later event loads the fallback document: the only load an event causes
    is the one of [lastLiveUrl] by a connectivity-available event. *)
Theorem onLost_only_notifies :
  forall a : MainActivity,
    state (onLost a) = a
    /\ effects (onLost a) =
       (if isFinishing (host a) then [] else toastOn a "Connection Lost")
    /\ loads (effects (onLost a)) = []
    /\ navigationState (state (onLost a)) = navigationState a
    /\ (forall msg : string,
          let r := loadOffline msg a in
          loads (effects r) = [LOCAL_URL]
          /\ url (myWebView (state r)) = Some LOCAL_URL
          /\ lastLiveUrl (state r) =
             match url (myWebView a) with
             | Some u => if isAssetUrl u then lastLiveUrl a else u
             | None => lastLiveUrl a
             end)
    /\ (forall target splash h,
          loads (effects (onCreate (newActivity target splash h))) =
          [if result (isNetworkAvailable (newActivity target splash h))
           then target else LOCAL_URL])
    /\ (forall (e : Event) (u : string),
          In u (loads (effects (dispatch e a))) ->
          e = NetworkAvailable /\ u = lastLiveUrl a
          /\ url (myWebView a) = Some LOCAL_URL).
Proof.
  intros a. rewrite onLost_eq. cbn [state effects fst snd].
  split; [reflexivity|]. split; [reflexivity|].
  split; [destruct (isFinishing (host a)); [reflexivity|apply loads_toastOn]|].
  split; [reflexivity|].
  split; [|split].
  - intros msg. cbv zeta. rewrite loadOffline_eq. cbn [state effects fst snd].
    change (LoadUrl LOCAL_URL :: toastOn a msg)
      with ([LoadUrl LOCAL_URL] ++ toastOn a msg).
    rewrite loads_app, loads_toastOn. repeat split.
  - intros target splash h. unfold newActivity. handler_cases.
  - intros e u. destruct e; cbn [dispatch].
    all: try solve [handler_cases].
    + (* NetworkAvailable *)
      rewrite onAvailable_eq.
      destruct (isFinishing (host a)); [intros []|].
      destruct (bool_decide (url (myWebView a) = Some LOCAL_URL)) eqn:Hloc;
        cbn [effects snd]; rewrite loads_app, loads_toastOn; cbn.
      * apply bool_decide_eq_true_1 in Hloc. intuition congruence.
      * intros [].
    + (* WebPermissionRequest *)
      rewrite onPermissionRequest_eq.
      destruct request as [resources|]; [|intros []].
      cbn [effects snd]. rewrite loads_app, loads_requestLog. intros [].
Qed.

(** ** The bridge on the two hosts *)

(** C3, failing input.  [vibrate] with a number is an interface method of
    the Android host.  The script the iOS generator injects is its plain
    string [bridge_js] as written: after the leading white space it begins
    [var Native = {{], and every brace in it is one of a doubled pair, as in
    the template of an f-string.  (What follows from it is JavaScript's
    part and not modelled: an object literal cannot open with a second
    brace, so the script is rejected and defines no [Native].) *)
Theorem ios_bridge_script_keeps_doubled_braces :
  Bridge.android_declares "vibrate" [Bridge.KNumber] = true
  /\ String.prefix "var Native = {{" (Bridge.skip_blank Bridge.bridge_js) = true
  /\ Bridge.paired_braces Bridge.bridge_js = true.
Proof. repeat split; vm_compute; reflexivity. Qed.

(** ** The permission batch *)

Lemma permissionBatch_cases (sdk : Z) :
  permissionBatch sdk =
  [ "CAMERA"; "RECORD_AUDIO"; "READ_CONTACTS"; "WRITE_CONTACTS"; "CALL_PHONE";
    "READ_PHONE_STATE"; "READ_SMS"; "RECEIVE_SMS"; "SEND_SMS";
    "ACCESS_FINE_LOCATION"; "ACCESS_COARSE_LOCATION" ]
  ++ (if 33 <=? sdk
      then [ "POST_NOTIFICATIONS"; "READ_MEDIA_IMAGES"; "READ_MEDIA_VIDEO";
             "READ_MEDIA_AUDIO" ]
           ++ (if 34 <=? sdk then [ "READ_MEDIA_VISUAL_USER_SELECTED" ] else [])
      else [ "READ_EXTERNAL_STORAGE"; "WRITE_EXTERNAL_STORAGE" ]).
Proof.
  unfold permissionBatch.
  destruct (33 <=? sdk); [destruct (34 <=? sdk)|]; reflexivity.
Qed.

(** Membership in the batch, by host level. *)
Lemma permissionBatch_tiers (sdk : Z) :
  (forall p, p ∈ [ "POST_NOTIFICATIONS"; "READ_MEDIA_IMAGES";
                   "READ_MEDIA_VIDEO"; "READ_MEDIA_AUDIO" ] ->
             (p ∈ permissionBatch sdk <-> 33 <= sdk))
  /\ ("READ_MEDIA_VISUAL_USER_SELECTED" ∈ permissionBatch sdk <-> 34 <= sdk)
  /\ (forall p, p ∈ [ "READ_EXTERNAL_STORAGE"; "WRITE_EXTERNAL_STORAGE" ] ->
                (p ∈ permissionBatch sdk <-> sdk < 33)).
Proof.
  rewrite permissionBatch_cases.
  destruct (Z.leb_spec 33 sdk) as [H33|H33];
    [destruct (Z.leb_spec 34 sdk) as [H34|H34]|].
  all: split; [|split].
  all: try (intros p Hp;
            repeat (apply elem_of_cons in Hp; destruct Hp as [->|Hp]);
            try solve [now apply elem_of_nil in Hp]).
  all: split; intros Hin; try lia; try decide_elem.
  all: exfalso; revert Hin; decide_elem.
Qed.

(** ** The looper and sessions *)

Lemma bind_eq {A B} (c : M A) (k : A -> M B) (a : MainActivity) :
  bind c k a =
  (result (k (result (c a)) (state (c a))),
   state (k (result (c a)) (state (c a))),
   effects (c a) ++ effects (k (result (c a)) (state (c a)))).
Proof.
  unfold bind, result, state, effects.
  destruct (c a) as [[x a1] e1]. cbn.
  destruct (k x a1) as [[y a2] e2]. reflexivity.
Qed.

Lemma unit_result (r : unit * MainActivity * list Effect) :
  r = (tt, state r, effects r).
Proof. destruct r as [[[] a] es]. reflexivity. Qed.

Lemma runRunnables_eq (ms : list (Z * Runnable)) (a : MainActivity) :
  forEach ms (fun m => runRunnable (snd m)) a =
  (tt, afterRunnables ms a, effectsOfRunnables ms a).
Proof.
  revert a. induction ms as [|[due r] ms IH]; intros a.
  - unfold effectsOfRunnables. destruct a. cbn.
    now destruct (aliveb _).
  - cbn [forEach]. rewrite bind_eq, IH. cbn [snd fst].
    unfold afterRunnables, effectsOfRunnables, aliveb.
    cbn [existsb List.filter].
    destruct a as [live sp h w pb sv llu off dbl fpc q].
    destruct r; eval_carries; unfold_handlers; cbn;
      split_cases; first [reflexivity | congruence].
Qed.

Lemma deliver_eq (t : Z) (a : MainActivity) :
  deliver t a =
  let due := List.filter (isDue t) (mainLooper a) in
  let rest := List.filter (fun m => negb (isDue t m)) (mainLooper a) in
  let a' := afterRunnables due (with_mainLooper rest a) in
  (tt, with_host (host_with_uptime t (host a')) a',
   effectsOfRunnables due a).
Proof.
  unfold deliver. rewrite !bind_eq. cbn [read update result state effects fst snd].
  rewrite runRunnables_eq. cbn [result state effects fst snd app].
  rewrite app_nil_r. reflexivity.
Qed.

Lemma step_eq (t : Z) (e : Event) (a : MainActivity) :
  step (t, e) a =
  (tt, state (dispatch e (state (deliver t a))),
   effects (deliver t a) ++ effects (dispatch e (state (deliver t a)))).
Proof.
  unfold step. rewrite bind_eq. cbn [fst snd].
  rewrite (unit_result (dispatch e (state (deliver t a)))) at 1.
  reflexivity.
Qed.

Lemma runTrace_cons (te : Z * Event) (tr : list (Z * Event)) (a : MainActivity) :
  runTrace (te :: tr) a =
  (tt, state (runTrace tr (state (step te a))),
   effects (step te a) ++ effects (runTrace tr (state (step te a)))).
Proof.
  cbn [runTrace]. rewrite bind_eq.
  rewrite (unit_result (runTrace tr (state (step te a)))) at 1. reflexivity.
Qed.

Lemma runTrace_app (tr tr' : list (Z * Event)) (a : MainActivity) :
  runTrace (tr ++ tr') a =
  (tt, state (runTrace tr' (state (runTrace tr a))),
   effects (runTrace tr a) ++ effects (runTrace tr' (state (runTrace tr a)))).
Proof.
  revert a. induction tr as [|te tr IH]; intros a.
  - cbn. apply unit_result.
  - cbn [app]. rewrite !runTrace_cons, IH. cbn [state effects fst snd].
    now rewrite app_assoc.
Qed.

Lemma session_eq (target : string) (splash : bool) (h : Host)
  (tr : list (Z * Event)) :
  let boot := onCreate (newActivity target splash h) in
  session target splash h tr =
  (tt, state (runTrace tr (state boot)),
   effects boot ++ effects (runTrace tr (state boot))).
Proof.
  cbv zeta. unfold session. rewrite bind_eq.
  rewrite (unit_result (runTrace tr _)) at 1. reflexivity.
Qed.

Lemma session_snoc (target : string) (splash : bool) (h : Host)
  (tr : list (Z * Event)) (te : Z * Event) :
  let r := session target splash h tr in
  session target splash h (tr ++ [te]) =
  (tt, state (step te (state r)), effects r ++ effects (step te (state r))).
Proof.
  cbv zeta. rewrite !session_eq, runTrace_app. cbn [state effects fst snd].
  rewrite runTrace_cons. cbn [runTrace ret state effects fst snd].
  now rewrite app_nil_r, app_assoc.
Qed.

Lemma timed_snoc (t0 : Z) (tr : list (Z * Event)) (t : Z) (e : Event) :
  timed t0 (tr ++ [(t, e)]) <-> timed t0 tr /\ lastStamp t0 tr <= t.
Proof.
  revert t0. induction tr as [|[t' e'] tr IH]; intros t0; cbn.
  - tauto.
  - rewrite IH. tauto.
Qed.

(** *** Queued messages of one kind *)

Lemma dueOf_enqueue_other (r : Runnable) (m : Z * Runnable)
  (q : list (Z * Runnable)) :
  snd m <> r -> dueOf r (enqueue m q) = dueOf r q.
Proof.
  intros Hne. unfold dueOf.
  assert (Hm : carries r m = false) by now apply bool_decide_eq_false_2.
  induction q as [|m' q IH]; cbn [enqueue List.filter].
  - now rewrite Hm.
  - destruct (fst m <? fst m'); cbn [List.filter].
    + now rewrite Hm.
    + destruct (carries r m'); cbn [map]; now rewrite IH.
Qed.

Lemma dueOf_enqueue_first (r : Runnable) (d : Z) (q : list (Z * Runnable)) :
  dueOf r q = [] -> dueOf r (enqueue (d, r) q) = [d].
Proof.
  unfold dueOf.
  assert (Hm : carries r (d, r) = true) by now apply bool_decide_eq_true_2.
  induction q as [|m' q IH]; cbn [enqueue List.filter]; intros Hq.
  - now rewrite Hm.
  - destruct (carries r m') eqn:Hc; [discriminate|].
    destruct (fst (d, r) <? fst m'); cbn [List.filter];
      rewrite ?Hm, ?Hc; cbn [map fst].
    + now rewrite Hq.
    + now apply IH.
Qed.

Lemma dueOf_rest (r : Runnable) (t : Z) (q : list (Z * Runnable)) :
  dueOf r (List.filter (fun m => negb (isDue t m)) q) =
  List.filter (fun d => negb (d <=? t)) (dueOf r q).
Proof.
  unfold dueOf, isDue. induction q as [|[d r'] q IH]; [reflexivity|].
  cbn. destruct (d <=? t) eqn:Hd, (carries r (d, r')) eqn:Hc; cbn;
    rewrite ?Hd, ?Hc; cbn; now rewrite IH.
Qed.

Lemma dueOf_due (r : Runnable) (t : Z) (q : list (Z * Runnable)) :
  map fst (List.filter (carries r) (List.filter (isDue t) q)) =
  List.filter (fun d => d <=? t) (dueOf r q).
Proof.
  unfold dueOf, isDue. induction q as [|[d r'] q IH]; [reflexivity|].
  cbn. destruct (d <=? t) eqn:Hd, (carries r (d, r')) eqn:Hc; cbn;
    rewrite ?Hd, ?Hc; cbn; now rewrite IH.
Qed.

Lemma existsb_due (r : Runnable) (t : Z) (q : list (Z * Runnable)) :
  existsb (carries r) (List.filter (isDue t) q) =
  existsb (fun d => d <=? t) (dueOf r q).
Proof.
  unfold dueOf, isDue. induction q as [|[d r'] q IH]; [reflexivity|].
  cbn [List.filter fst].
  destruct (d <=? t) eqn:Hd; destruct (carries r (d, r')) eqn:Hc;
    cbn [existsb List.filter map fst]; rewrite ?Hd, ?Hc; cbn [orb];
    rewrite ?IH; reflexivity.
Qed.

(** *** What handling an event leaves alone *)

Lemma launched_app (es es' : list Effect) :
  launched (es ++ es') = launched es ++ launched es'.
Proof. apply List.filter_app. Qed.

Lemma launched_requestLog (resources : list string) :
  launched (requestLog resources) = [].
Proof. induction resources as [|r rs IH]; [reflexivity|exact IH]. Qed.

Lemma resolutions_app (cb : Callback) (es es' : list Effect) :
  resolutions cb (es ++ es') = (resolutions cb es + resolutions cb es')%nat.
Proof. unfold resolutions. now rewrite List.filter_app, length_app. Qed.

Lemma resolutions_requestLog (cb : Callback) (resources : list string) :
  resolutions cb (requestLog resources) = 0%nat.
Proof. induction resources as [|r rs IH]; [reflexivity|exact IH]. Qed.

Lemma dispatch_frame (e : Event) (a : MainActivity) :
  let r := dispatch e a in
  SDK_INT (host (state r)) = SDK_INT (host a)
  /\ uptimeMillis (host (state r)) = uptimeMillis (host a)
  /\ launched (effects r) = []
  /\ dueOf RunRequestPermissions (mainLooper (state r)) =
     dueOf RunRequestPermissions (mainLooper a)
  /\ (aliveb a = false -> aliveb (state r) = false)
  /\ splashConfigured (state r) = splashConfigured a
  /\ splashLayoutVisible (state r) = splashLayoutVisible a.
Proof.
  cbv zeta. destruct e; cbn [dispatch].
  all: try (rewrite onPermissionRequest_eq; destruct request;
            cbn [state effects fst snd];
            rewrite ?launched_app, ?launched_requestLog;
            repeat split; auto).
  all: unfold aliveb; destruct a as [live sp hst wv pb sv llu off dbl fpc q];
    destruct hst as [sdk up fin des net bg].
  all: unfold_handlers; cbn; split_cases.
  all: repeat split; try reflexivity; try congruence.
  all: apply dueOf_enqueue_other; discriminate.
Qed.

(** *** The permission timer *)

Lemma launched_effectsOfRunnables (ms : list (Z * Runnable)) (a : MainActivity) :
  launched (effectsOfRunnables ms a) = effectsOfRunnables ms a.
Proof.
  unfold effectsOfRunnables. destruct (aliveb a); [|reflexivity].
  induction (List.filter (carries RunRequestPermissions) ms) as [|m l IH];
    [reflexivity|].
  cbn. unfold launched in IH. now rewrite IH.
Qed.

Lemma deliver_host (t : Z) (a : MainActivity) :
  host (state (deliver t a)) = host_with_uptime t (host a).
Proof. rewrite deliver_eq. reflexivity. Qed.

Lemma deliver_looper (t : Z) (a : MainActivity) :
  mainLooper (state (deliver t a)) =
  List.filter (fun m => negb (isDue t m)) (mainLooper a).
Proof. rewrite deliver_eq. reflexivity. Qed.

Lemma deliver_aliveb (t : Z) (a : MainActivity) :
  aliveb (state (deliver t a)) = aliveb a.
Proof. unfold aliveb. now rewrite deliver_host. Qed.

Lemma step_uptime (t : Z) (e : Event) (a : MainActivity) :
  uptimeMillis (host (state (step (t, e) a))) = t.
Proof.
  rewrite step_eq. cbn [state fst snd].
  destruct (dispatch_frame e (state (deliver t a))) as (_ & -> & _).
  now rewrite deliver_host.
Qed.

Lemma boot_facts (target : string) (splash : bool) (h : Host) :
  let boot := onCreate (newActivity target splash h) in
  mainLooper (state boot) = [(uptimeMillis h + 5000, RunRequestPermissions)]
  /\ host (state boot) = h
  /\ launched (effects boot) = []
  /\ doubleBackToExitPressedOnce (state boot) = false
  /\ filePathCallback (state boot) = None
  /\ (forall cb, resolutions cb (effects boot) = 0%nat)
  /\ splashConfigured (state boot) = splash
  /\ splashLayoutVisible (state boot) = splash
  /\ List.filter isFade (effects boot) = []
  /\ List.filter isFinish (effects boot) = [].
Proof.
  cbv zeta. unfold newActivity. destruct h as [sdk up fin des net bg].
  unfold_handlers; cbn; split_cases; repeat split.
Qed.

Lemma permissionInv_boot (target : string) (splash : bool) (h : Host) :
  let boot := onCreate (newActivity target splash h) in
  permissionInv (SDK_INT h) (uptimeMillis h) (state boot) (effects boot)
  /\ uptimeMillis (host (state boot)) = uptimeMillis h.
Proof.
  cbv zeta. unfold permissionInv.
  destruct (boot_facts target splash h) as (-> & -> & -> & _).
  split; [|reflexivity]. split; [reflexivity|].
  left. repeat split. lia.
Qed.

Section PermissionTimer.

(** A session booted at [t0] on a host of level [sdk]. *)
Variables (sdk t0 : Z).

Lemma permissionInv_deliver (t : Z) (a : MainActivity) (es : list Effect) :
  permissionInv sdk t0 a es ->
  uptimeMillis (host a) <= t ->
  permissionInv sdk t0 (state (deliver t a)) (es ++ effects (deliver t a)).
Proof.
  intros (Hsdk & Hcase) Ht. unfold permissionInv.
  rewrite deliver_host, deliver_looper, deliver_aliveb, dueOf_rest, launched_app.
  rewrite deliver_eq. cbn [effects snd SDK_INT uptimeMillis host_with_uptime].
  rewrite launched_effectsOfRunnables.
  split; [exact Hsdk|].
  assert (Heff : effectsOfRunnables (List.filter (isDue t) (mainLooper a)) a =
                 if aliveb a
                 then map (fun _ => LaunchPermissions (permissionBatch sdk))
                        (List.filter (fun d => d <=? t)
                           (dueOf RunRequestPermissions (mainLooper a)))
                 else []).
  { unfold effectsOfRunnables. rewrite Hsdk.
    destruct (aliveb a); [|reflexivity].
    rewrite <- dueOf_due, map_map. reflexivity. }
  rewrite Heff.
  destruct Hcase as [(Hq & Hl & Hup)|(Hq & Hup & Hl)]; rewrite Hq; cbn.
  - destruct (Z.leb_spec (t0 + 5000) t) as [Hdue|Hdue]; cbn.
    + right. rewrite Hl. repeat split; try lia.
      destruct (aliveb a); cbn; auto.
    + left. rewrite Hl. destruct (aliveb a); cbn; repeat split; auto.
  - right. repeat split; try lia.
    destruct (aliveb a); cbn; rewrite app_nil_r; auto.
Qed.

Lemma permissionInv_dispatch (e : Event) (a : MainActivity)
  (es : list Effect) :
  permissionInv sdk t0 a es ->
  permissionInv sdk t0 (state (dispatch e a)) (es ++ effects (dispatch e a)).
Proof.
  intros (Hsdk & Hcase). unfold permissionInv.
  destruct (dispatch_frame e a) as (-> & -> & Hl & -> & Hdead & _).
  rewrite launched_app, Hl, app_nil_r.
  split; [exact Hsdk|].
  destruct Hcase as [?|(Hq & Hup & [Hone|(Hnone & Hd)])]; auto.
  right. repeat split; auto.
Qed.

Lemma permissionInv_step (t : Z) (e : Event) (a : MainActivity)
  (es : list Effect) :
  permissionInv sdk t0 a es ->
  uptimeMillis (host a) <= t ->
  permissionInv sdk t0 (state (step (t, e) a)) (es ++ effects (step (t, e) a)).
Proof.
  intros Hinv Ht. rewrite step_eq. cbn [state effects fst snd].
  rewrite app_assoc. apply permissionInv_dispatch.
  now apply permissionInv_deliver.
Qed.

Lemma permissionInv_runTrace (tr : list (Z * Event)) :
  forall (a : MainActivity) (es : list Effect),
    permissionInv sdk t0 a es ->
    timed (uptimeMillis (host a)) tr ->
    permissionInv sdk t0 (state (runTrace tr a)) (es ++ effects (runTrace tr a))
    /\ uptimeMillis (host (state (runTrace tr a))) =
       lastStamp (uptimeMillis (host a)) tr.
Proof.
  induction tr as [|[t e] tr IH]; intros a es Hinv Htimed.
  - cbn. now rewrite app_nil_r.
  - destruct Htimed as (Ht & Htimed).
    rewrite runTrace_cons. cbn [state effects fst snd lastStamp].
    rewrite app_assoc.
    pose proof (step_uptime t e a) as Hup.
    destruct (IH (state (step (t, e) a)) (es ++ effects (step (t, e) a)))
      as (Hinv' & Hlast).
    + now apply permissionInv_step.
    + now rewrite Hup.
    + split; [exact Hinv'|]. now rewrite Hlast, Hup.
Qed.

End PermissionTimer.

Lemma aliveb_alive (a : MainActivity) : alive a -> aliveb a = true.
Proof. intros [Hf Hd]. unfold aliveb. now rewrite Hf, Hd. Qed.

(** C5.  The batch holds the notification permission and the three granular
    media-read permissions exactly on hosts of level 33 and above, the
    visual-user-selected permission exactly from level 34, and the two legacy
    storage permissions exactly below level 33.  In a session it is launched
    at most once, and always as the batch of the host's level: not before
    5000 ms have passed since boot, and exactly once when the session has
    reached that time with the activity neither finishing nor destroyed. *)
Theorem permission_batch_by_tier_issued_once :
  forall (target : string) (splash : bool) (h : Host) (tr : list (Z * Event)),
    timed (uptimeMillis h) tr ->
    let sdk := SDK_INT h in
    let t0 := uptimeMillis h in
    let r := session target splash h tr in
    (forall p, p ∈ [ "POST_NOTIFICATIONS"; "READ_MEDIA_IMAGES";
                     "READ_MEDIA_VIDEO"; "READ_MEDIA_AUDIO" ] ->
               (p ∈ permissionBatch sdk <-> 33 <= sdk))
    /\ ("READ_MEDIA_VISUAL_USER_SELECTED" ∈ permissionBatch sdk <-> 34 <= sdk)
    /\ (forall p, p ∈ [ "READ_EXTERNAL_STORAGE"; "WRITE_EXTERNAL_STORAGE" ] ->
                  (p ∈ permissionBatch sdk <-> sdk < 33))
    /\ (launched (effects r) = []
        \/ launched (effects r) = [LaunchPermissions (permissionBatch sdk)])
    /\ (lastStamp t0 tr < t0 + 5000 -> launched (effects r) = [])
    /\ (t0 + 5000 <= lastStamp t0 tr -> alive (state r) ->
        launched (effects r) = [LaunchPermissions (permissionBatch sdk)]).
Proof.
  intros target splash h tr Htimed sdk t0 r.
  destruct (permissionBatch_tiers sdk) as (Hnew & Hsel & Hold).
  split; [exact Hnew|]. split; [exact Hsel|]. split; [exact Hold|].
  destruct (permissionInv_boot target splash h) as (Hboot & Hup).
  destruct (permissionInv_runTrace sdk t0 tr _ _ Hboot) as ((_ & Hinv) & Hlast).
  { now rewrite Hup. }
  rewrite Hup in Hlast.
  subst r. rewrite session_eq. cbn [state effects fst snd].
  fold t0 in Hlast. rewrite Hlast in Hinv.
  destruct Hinv as [(_ & Hl & Hlt)|(_ & Hge & [Hl|(Hl & Hdead)])].
  - split; [now left|]. split; [auto|]. intros; lia.
  - split; [now right|]. split; [intros; lia|auto].
  - split; [now left|]. split; [auto|].
    intros _ Halive. apply aliveb_alive in Halive. congruence.
Qed.

Lemma permission_batch_by_tier_issued_once_witness :
  let h := mkHost 34 0 false false (Some (Some true)) false in
  let tr := [ (900, PageFinished (Some "https://example.org/"));
              (6000, NetworkLost) ] in
  timed (uptimeMillis h) tr
  /\ launched (effects (session "https://example.org/" true h tr)) =
     [LaunchPermissions (permissionBatch 34)].
Proof.
  cbv zeta.
  assert (Htimed : timed 0 [ (900, PageFinished (Some "https://example.org/"));
                             (6000, NetworkLost) ]).
  { cbn. lia. }
  split; [exact Htimed|].
  pose proof (permission_batch_by_tier_issued_once "https://example.org/" true
                (mkHost 34 0 false false (Some (Some true)) false) _ Htimed)
    as H.
  cbv zeta in H. destruct H as (_ & _ & _ & _ & _ & H).
  apply H; [cbn; lia|]. split; reflexivity.
Defined.

(** *** The exit guard *)

Lemma handleOnBackPressed_eq (a : MainActivity) :
  handleOnBackPressed a =
  if canGoBack (myWebView a) then (tt, a, [GoBack])
  else if doubleBackToExitPressedOnce a
       then (tt, with_host (host_with_finishing true (host a)) a, [Finish])
       else (tt,
             with_mainLooper
               (enqueue (uptimeMillis (host a) + 2000, RunDisarmExit)
                  (mainLooper a))
               (with_doubleBack true a),
             toastOn a "Press back again to exit").
Proof. unfold toastOn, aliveb. destruct a. handler_cases. Qed.

Lemma dispatch_frame_guard (e : Event) (a : MainActivity) :
  isBack e = false ->
  let r := dispatch e a in
  doubleBackToExitPressedOnce (state r) = doubleBackToExitPressedOnce a
  /\ dueOf RunDisarmExit (mainLooper (state r)) =
     dueOf RunDisarmExit (mainLooper a).
Proof.
  cbv zeta. destruct e; cbn [dispatch isBack]; try discriminate; intros _.
  all: try (rewrite onPermissionRequest_eq; destruct request;
            cbn [state effects fst snd]; split; reflexivity).
  all: destruct a as [live sp hst wv pb sv llu off dbl fpc q];
    destruct hst as [sdk up fin des net bg].
  all: unfold_handlers; cbn; split_cases.
  all: split; try reflexivity.
  all: apply dueOf_enqueue_other; discriminate.
Qed.

Lemma deliver_doubleBack (t : Z) (a : MainActivity) :
  doubleBackToExitPressedOnce (state (deliver t a)) =
  if existsb (fun d => d <=? t) (dueOf RunDisarmExit (mainLooper a))
  then false else doubleBackToExitPressedOnce a.
Proof. rewrite deliver_eq. cbn. now rewrite existsb_due. Qed.

Lemma exitInv_deliver (pre : list (Z * Event)) (t : Z) (a : MainActivity) :
  exitInv pre a ->
  uptimeMillis (host a) <= t ->
  exitInv pre (state (deliver t a)).
Proof.
  intros Hinv Ht. unfold exitInv.
  rewrite deliver_doubleBack, deliver_looper, dueOf_rest, deliver_host.
  cbn [uptimeMillis host_with_uptime].
  destruct Hinv as [(Hflag & Hq)|(Hflag & t' & Hin & Hq & Hup)]; rewrite Hq; cbn.
  - left. now rewrite Hflag.
  - destruct (Z.leb_spec (t' + 2000) t) as [Hdue|Hdue]; cbn.
    + now left.
    + right. split; [exact Hflag|]. exists t'. repeat split; auto; lia.
Qed.

Lemma exitInv_mono (pre pre' : list (Z * Event)) (a : MainActivity) :
  exitInv pre a -> exitInv (pre ++ pre') a.
Proof.
  intros [H|(Hflag & t' & Hin & H)]; [now left|].
  right. split; [exact Hflag|]. exists t'. split; [|exact H].
  apply in_or_app. now left.
Qed.

Lemma exitInv_dispatch (pre : list (Z * Event)) (e : Event) (a : MainActivity) :
  exitInv pre a ->
  exitInv (pre ++ [(uptimeMillis (host a), e)]) (state (dispatch e a)).
Proof.
  intros Hinv. destruct (isBack e) eqn:Hback.
  - destruct e; try discriminate. cbn [dispatch].
    rewrite handleOnBackPressed_eq.
    destruct (canGoBack (myWebView a)); [now apply exitInv_mono|].
    destruct Hinv as [(Hflag & Hq)|(Hflag & t' & Hin & Hq & Hup)];
      rewrite Hflag; cbn [state fst snd].
    + right. split; [reflexivity|]. exists (uptimeMillis (host a)).
      split; [apply in_or_app; right; now left|].
      split; [now apply dueOf_enqueue_first|cbn; lia].
    + right. split; [exact Hflag|]. exists t'.
      split; [apply in_or_app; now left|]. split; [exact Hq|exact Hup].
  - destruct (dispatch_frame_guard e a Hback) as (Hflag & Hq).
    destruct (dispatch_frame e a) as (_ & Hup & _).
    apply exitInv_mono. unfold exitInv. rewrite Hflag, Hq, Hup. exact Hinv.
Qed.

Lemma lastStamp_snoc (t0 : Z) (tr : list (Z * Event)) (t : Z) (e : Event) :
  lastStamp t0 (tr ++ [(t, e)]) = t.
Proof.
  revert t0. induction tr as [|[t' e'] tr IH]; intros t0; cbn; auto.
Qed.

Lemma exitInv_session (target : string) (splash : bool) (h : Host)
  (tr : list (Z * Event)) :
  timed (uptimeMillis h) tr ->
  exitInv tr (state (session target splash h tr))
  /\ uptimeMillis (host (state (session target splash h tr))) =
     lastStamp (uptimeMillis h) tr.
Proof.
  induction tr as [|[t e] tr IH] using rev_ind; intros Htimed.
  - rewrite session_eq. cbn [runTrace ret state fst snd lastStamp].
    destruct (boot_facts target splash h) as (Hq & Hh & _ & Hflag & _).
    split; [|now rewrite Hh]. left. now rewrite Hflag, Hq.
  - apply timed_snoc in Htimed. destruct Htimed as (Htimed & Hlast).
    destruct (IH Htimed) as (Hinv & Hup).
    rewrite session_snoc. cbn [state fst snd].
    split.
    + rewrite step_eq. cbn [state fst snd].
      pose proof (exitInv_deliver tr t _ Hinv) as Hd.
      rewrite Hup in Hd. specialize (Hd Hlast).
      pose proof (exitInv_dispatch tr e _ Hd) as He.
      now rewrite deliver_host in He.
    + now rewrite step_uptime, lastStamp_snoc.
Qed.

Lemma step_guard_noback (t : Z) (e : Event) (a : MainActivity) :
  isBack e = false ->
  doubleBackToExitPressedOnce (state (step (t, e) a)) =
    (if existsb (fun d => d <=? t) (dueOf RunDisarmExit (mainLooper a))
     then false else doubleBackToExitPressedOnce a)
  /\ dueOf RunDisarmExit (mainLooper (state (step (t, e) a))) =
     List.filter (fun d => negb (d <=? t)) (dueOf RunDisarmExit (mainLooper a)).
Proof.
  intros Hback. rewrite step_eq. cbn [state fst snd].
  destruct (dispatch_frame_guard e (state (deliver t a)) Hback) as (-> & ->).
  now rewrite deliver_doubleBack, deliver_looper, dueOf_rest.
Qed.

Section ArmedGuard.

(** The due time of the one queued disarm message. *)
Variable d : Z.

(** Events other than back-actions, all before the disarm message is due,
    leave an armed guard armed. *)
Lemma armed_kept (mid : list (Z * Event)) :
  forall a : MainActivity,
    Forall (fun te => isBack (snd te) = false /\ fst te < d) mid ->
    doubleBackToExitPressedOnce a = true ->
    dueOf RunDisarmExit (mainLooper a) = [d] ->
    doubleBackToExitPressedOnce (state (runTrace mid a)) = true
    /\ dueOf RunDisarmExit (mainLooper (state (runTrace mid a))) = [d].
Proof.
  induction mid as [|[t e] mid IH]; intros a Hmid Hflag Hq; [now cbn|].
  apply Forall_cons in Hmid. destruct Hmid as ((Hback & Ht) & Hmid).
  cbn [fst snd] in Hback, Ht.
  rewrite runTrace_cons. cbn [state fst snd].
  destruct (step_guard_noback t e a Hback) as (Hflag' & Hq').
  rewrite Hq in Hflag', Hq'. cbn in Hflag', Hq'.
  destruct (Z.leb_spec d t); [lia|]. cbn in Hflag', Hq'.
  apply IH; congruence.
Qed.

(** Events other than back-actions never arm the guard. *)
Lemma armed_or_disarmed (mid : list (Z * Event)) :
  forall a : MainActivity,
    Forall (fun te => isBack (snd te) = false) mid ->
    (doubleBackToExitPressedOnce a = true
     /\ dueOf RunDisarmExit (mainLooper a) = [d])
    \/ (doubleBackToExitPressedOnce a = false
        /\ dueOf RunDisarmExit (mainLooper a) = []) ->
    let a' := state (runTrace mid a) in
    (doubleBackToExitPressedOnce a' = true
     /\ dueOf RunDisarmExit (mainLooper a') = [d])
    \/ (doubleBackToExitPressedOnce a' = false
        /\ dueOf RunDisarmExit (mainLooper a') = []).
Proof.
  induction mid as [|[t e] mid IH]; intros a Hmid Hcase; [exact Hcase|].
  apply Forall_cons in Hmid. destruct Hmid as (Hback & Hmid).
  cbn [snd] in Hback. cbv zeta.
  rewrite runTrace_cons. cbn [state fst snd].
  apply IH; [exact Hmid|].
  destruct (step_guard_noback t e a Hback) as (Hflag' & Hq').
  destruct Hcase as [(Hflag & Hq)|(Hflag & Hq)];
    rewrite Hq in Hflag', Hq'; cbn in Hflag', Hq'.
  - destruct (d <=? t); cbn in Hflag', Hq'; [right|left]; split; congruence.
  - right. split; congruence.
Qed.

End ArmedGuard.

(** C8.  The back-action stamped [t1] of a session, handled on the activity
    [a1] the looper leaves at [t1]:
    - with back-history it only navigates back: flag and queue are untouched;
    - at the root with the flag down it raises the flag, shows the notice
      "Press back again to exit" (on a live activity) and queues the disarm
      message for [t1 + 2000]; whatever other events follow, a next
      back-action at the root before [t1 + 2000] finishes the activity, and
      one at or after [t1 + 2000] finds the flag down and does not finish
      (the disarm message itself has no effect but lowering the flag);
    - at the root with the flag up it finishes the activity;
    - it finishes the activity only if an earlier back-action of the
      session is less than 2000 ms old. *)
Theorem exit_guard :
  forall (target : string) (splash : bool) (h : Host)
         (pre : list (Z * Event)) (t1 : Z),
    timed (uptimeMillis h) (pre ++ [(t1, BackPressed)]) ->
    let a1 := state (deliver t1 (state (session target splash h pre))) in
    let r1 := handleOnBackPressed a1 in
    (canGoBack (myWebView a1) = true -> r1 = (tt, a1, [GoBack]))
    /\ (canGoBack (myWebView a1) = false ->
        doubleBackToExitPressedOnce a1 = false ->
        doubleBackToExitPressedOnce (state r1) = true
        /\ effects r1 = toastOn a1 "Press back again to exit"
        /\ (alive a1 -> effects r1 = [Toast "Press back again to exit"])
        /\ dueOf RunDisarmExit (mainLooper (state r1)) = [t1 + 2000]
        /\ (forall (mid : list (Z * Event)) (t2 : Z),
              Forall (fun te => isBack (snd te) = false /\ fst te < t1 + 2000)
                mid ->
              t2 < t1 + 2000 ->
              let a2 := state (deliver t2 (state (runTrace mid (state r1)))) in
              canGoBack (myWebView a2) = false ->
              effects (handleOnBackPressed a2) = [Finish])
        /\ (forall (mid : list (Z * Event)) (t2 : Z),
              Forall (fun te => isBack (snd te) = false) mid ->
              t1 + 2000 <= t2 ->
              let a2 := state (deliver t2 (state (runTrace mid (state r1)))) in
              doubleBackToExitPressedOnce a2 = false
              /\ ~ In Finish (effects (handleOnBackPressed a2))))
    /\ runRunnable RunDisarmExit a1 = (tt, with_doubleBack false a1, [])
    /\ (canGoBack (myWebView a1) = false ->
        doubleBackToExitPressedOnce a1 = true ->
        effects r1 = [Finish])
    /\ (In Finish (effects r1) ->
        exists t' : Z, In (t', BackPressed) pre /\ t' <= t1 < t' + 2000).
Proof.
  intros target splash h pre t1 Htimed a1 r1.
  apply timed_snoc in Htimed. destruct Htimed as (Htimed & Hlast).
  destruct (exitInv_session target splash h pre Htimed) as (Hinv & Hup).
  assert (Hinv1 : exitInv pre a1).
  { apply exitInv_deliver; [exact Hinv|]. now rewrite Hup. }
  assert (Hup1 : uptimeMillis (host a1) = t1).
  { subst a1. now rewrite deliver_host. }
  subst r1. rewrite handleOnBackPressed_eq.
  split; [intros ->; reflexivity|].
  split; [|split; [reflexivity|split]].
  - intros Hroot Hflag. rewrite Hroot, Hflag. cbn [state effects fst snd].
    assert (Hq : dueOf RunDisarmExit
                   (enqueue (uptimeMillis (host a1) + 2000, RunDisarmExit)
                      (mainLooper a1)) = [t1 + 2000]).
    { rewrite <- Hup1. apply dueOf_enqueue_first.
      destruct Hinv1 as [(_ & Hq)|(Hflag' & _)]; congruence. }
    split; [reflexivity|]. split; [reflexivity|].
    split; [apply toastOn_alive|]. split; [exact Hq|].
    set (armed := with_mainLooper _ (with_doubleBack true a1)).
    change (dueOf RunDisarmExit (mainLooper armed) = [t1 + 2000]) in Hq.
    split.
    + intros mid t2 Hmid Ht2 Hroot2.
      destruct (armed_kept (t1 + 2000) mid armed Hmid eq_refl Hq)
        as (Hflag2 & Hq2).
      rewrite handleOnBackPressed_eq, Hroot2.
      rewrite deliver_doubleBack, Hq2. cbn.
      destruct (Z.leb_spec (t1 + 2000) t2); [lia|]. cbn.
      now rewrite Hflag2.
    + intros mid t2 Hmid Ht2.
      set (a2 := state (deliver t2 _)).
      assert (Hdown : doubleBackToExitPressedOnce a2 = false).
      { subst a2. rewrite deliver_doubleBack.
        destruct (armed_or_disarmed (t1 + 2000) mid armed Hmid
                    (or_introl (conj eq_refl Hq))) as [(_ & ->)|(-> & ->)]; cbn.
        - destruct (Z.leb_spec (t1 + 2000) t2); [reflexivity|lia].
        - reflexivity. }
      split; [exact Hdown|].
      rewrite handleOnBackPressed_eq, Hdown.
      destruct (canGoBack (myWebView a2)); cbn [effects snd].
      * intros [Hin|[]]. discriminate.
      * unfold toastOn. destruct (aliveb a2); [intros [Hin|[]]|intros []].
        discriminate.
  - intros -> ->. reflexivity.
  - destruct (canGoBack (myWebView a1)); cbn [effects snd].
    { intros [Hin|[]]. discriminate. }
    destruct Hinv1 as [(Hflag & _)|(Hflag & t' & Hin & _ & Hwin)];
      rewrite Hflag; cbn [effects snd].
    + unfold toastOn. destruct (aliveb a1); [intros [Hin|[]]|intros []].
      discriminate.
    + intros _. exists t'. split; [exact Hin|]. lia.
Qed.

Lemma exit_guard_witness :
  let h := mkHost 34 0 false false (Some (Some true)) false in
  let pre := [ (1000, BackPressed) ] in
  timed (uptimeMillis h) (pre ++ [(1500, BackPressed)])
  /\ effects (handleOnBackPressed
                (state (deliver 1500
                          (state (session "https://example.org/" false h pre)))))
     = [Finish].
Proof.
  cbv zeta.
  assert (Htimed : timed 0 ([ (1000, BackPressed) ] ++ [(1500, BackPressed)])).
  { cbn. lia. }
  split; [exact Htimed|].
  pose proof (exit_guard "https://example.org/" false
                (mkHost 34 0 false false (Some (Some true)) false)
                [ (1000, BackPressed) ] 1500 Htimed) as H.
  cbv zeta in H. destruct H as (_ & _ & _ & H & _).
  apply H; reflexivity.
Defined.

(** *** The splash overlay *)

Lemma dispatch_fades (e : Event) (a : MainActivity) :
  splashLayoutVisible a = false ->
  List.filter isFade (effects (dispatch e a)) = [].
Proof.
  intros Hhidden. destruct e; cbn [dispatch].
  all: try (rewrite onPermissionRequest_eq; destruct request;
            cbn [effects snd]; rewrite ?List.filter_app;
            [induction l as [|x l IH]; [reflexivity|exact IH]|reflexivity]).
  all: destruct a as [live sp hst wv pb sv llu off dbl fpc q];
    destruct hst as [sdk up fin des net bg]; cbn in Hhidden; subst sv.
  all: unfold_handlers; cbn; split_cases; reflexivity.
Qed.

(** Once the overlay is hidden it stays hidden, and no signal starts a fade. *)
Lemma splash_hidden_is_final (tr : list (Z * Event)) :
  forall a : MainActivity,
    splashLayoutVisible a = false ->
    splashLayoutVisible (state (runTrace tr a)) = false
    /\ List.filter isFade (effects (runTrace tr a)) = [].
Proof.
  induction tr as [|[t e] tr IH]; intros a Hhidden; [now cbn|].
  rewrite runTrace_cons. cbn [state effects fst snd].
  assert (Hd : splashLayoutVisible (state (deliver t a)) = false).
  { rewrite deliver_eq. cbn. rewrite Hhidden. now destruct (existsb _ _). }
  assert (Hs : splashLayoutVisible (state (step (t, e) a)) = false
               /\ List.filter isFade (effects (step (t, e) a)) = []).
  { rewrite step_eq. cbn [state effects fst snd].
    destruct (dispatch_frame e (state (deliver t a))) as (_ & _ & _ & _ & _ & _ & ->).
    split; [exact Hd|].
    rewrite List.filter_app, (dispatch_fades e _ Hd), app_nil_r.
    rewrite deliver_eq. cbn [effects snd]. unfold effectsOfRunnables.
    destruct (aliveb a); [|reflexivity].
    induction (List.filter (carries RunRequestPermissions) _) as [|m l IHl];
      [reflexivity|exact IHl]. }
  destruct Hs as (Hs & He). destruct (IH _ Hs) as (Hs' & He').
  split; [exact Hs'|]. now rewrite List.filter_app, He, He'.
Qed.

(** C7, failing input.  Given a splash image, the generator declares the
    field [splashLayout: LinearLayout] in the activity, but no import line
    brings a class [LinearLayout] into scope: of [android.widget] only
    [ProgressBar] and [Toast] are imported, and the star imports are those
    of [android.net] and [android.webkit].  (Kotlin then leaves the name
    unresolved and the edition with the overlay does not compile; the
    compiler is not modelled.)  In every session of the edition without a
    splash image no fade is ever started. *)
Theorem splash_edition_declares_unimported_LinearLayout :
  (forall splash_path : string,
      Template.kt_splash_var (Some splash_path) =
      "private lateinit var splashLayout: LinearLayout")
  /\ Template.imports_class "LinearLayout" = false
  /\ List.filter (String.prefix "android.widget.") Template.imports =
     [ "android.widget.ProgressBar"; "android.widget.Toast" ]
  /\ Template.star_imports = [ "android.net.*"; "android.webkit.*" ]
  /\ (forall (target : string) (h : Host) (tr : list (Z * Event)),
        List.filter isFade (effects (session target false h tr)) = []).
Proof.
  split; [reflexivity|]. split; [vm_compute; reflexivity|].
  split; [vm_compute; reflexivity|]. split; [vm_compute; reflexivity|].
  intros target h tr. rewrite session_eq. cbn [effects snd].
  destruct (boot_facts target false h)
    as (_ & _ & _ & _ & _ & _ & _ & Hhidden & Hboot & _).
  cbv zeta in Hhidden, Hboot.
  destruct (splash_hidden_is_final tr _ Hhidden) as (_ & Hrun).
  now rewrite List.filter_app, Hboot, Hrun.
Qed.

(** *** The file chooser *)

Lemma onShowFileChooser_eq (cb : option Callback) (launchThrows : bool)
  (a : MainActivity) :
  onShowFileChooser cb launchThrows a =
  (negb launchThrows,
   with_filePathCallback (if launchThrows then None else cb) a,
   match filePathCallback a with
   | Some c0 => [ReceiveValue c0 None]
   | None => []
   end ++ (if launchThrows then [] else [LaunchPicker])).
Proof. destruct a. handler_cases. Qed.

(** The value handed to the stored callback for an activity result. *)
Lemma fileChooserLauncher_eq (res : ActivityResult) (a : MainActivity) :
  let value :=
    if resultCode res =? RESULT_OK
    then match data res with
         | Some (Some dataString) => Some [dataString]
         | _ => None
         end
    else None in
  fileChooserLauncher res a =
  (tt, with_filePathCallback None a,
   match filePathCallback a with
   | Some c0 => [ReceiveValue c0 value]
   | None => []
   end).
Proof. destruct a, res as [code [[d|]|]]. all: handler_cases. Qed.

Lemma dispatch_frame_chooser (e : Event) (a : MainActivity) :
  isChooserEvent e = false ->
  filePathCallback (state (dispatch e a)) = filePathCallback a
  /\ forall cb, resolutions cb (effects (dispatch e a)) = 0%nat.
Proof.
  destruct e; cbn [dispatch isChooserEvent]; try discriminate; intros _.
  all: try (rewrite onPermissionRequest_eq; destruct request;
            cbn [state effects fst snd]; split; try reflexivity; intros cb;
            rewrite ?resolutions_app, ?resolutions_requestLog; reflexivity).
  all: destruct a as [live sp hst wv pb sv llu off dbl fpc q];
    destruct hst as [sdk up fin des net bg].
  all: unfold_handlers; cbn; split_cases.
  all: split; try reflexivity; intros cb; reflexivity.
Qed.

Lemma deliver_chooser (t : Z) (a : MainActivity) :
  filePathCallback (state (deliver t a)) = filePathCallback a
  /\ forall cb, resolutions cb (effects (deliver t a)) = 0%nat.
Proof.
  rewrite deliver_eq. cbn [state effects fst snd]. split; [reflexivity|].
  intros cb. unfold effectsOfRunnables. destruct (aliveb a); [|reflexivity].
  induction (List.filter (carries RunRequestPermissions) _) as [|m l IH];
    [reflexivity|exact IH].
Qed.

Lemma resolutions_one (cb c0 : Callback) (v : option (list string)) :
  resolutions cb [ReceiveValue c0 v] = if decide (c0 = cb) then 1%nat else 0%nat.
Proof.
  unfold resolutions. cbn. destruct (decide (c0 = cb)) as [->|Hne].
  - now rewrite bool_decide_eq_true_2.
  - now rewrite bool_decide_eq_false_2.
Qed.

Lemma NoDup_fst_unique {A B} (l : list (A * B)) (x : A) (y1 y2 : B) :
  NoDup (map fst l) -> In (x, y1) l -> In (x, y2) l -> y1 = y2.
Proof.
  induction l as [|[a b] l IH]; cbn; intros Hnd H1 H2; [destruct H1|].
  apply NoDup_cons in Hnd. destruct Hnd as (Hnotin & Hnd).
  assert (Hno : forall y, In (a, y) l -> False).
  { intros y Hy. apply Hnotin, list_elem_of_In, in_map_iff.
    now exists (a, y). }
  destruct H1 as [H1|H1], H2 as [H2|H2].
  - congruence.
  - inversion H1; subst. destruct (Hno _ H2).
  - inversion H2; subst. destruct (Hno _ H1).
  - now apply IH.
Qed.

(** A stored callback is replaced or dropped: it receives [v], and [next]
    (fresh when it is a callback) takes its place. *)
Lemma chooserInv_replace (reqs : list (Callback * bool)) (a : MainActivity)
  (es : list Effect) (v : option (list string)) (next : option Callback)
  (added : list (Callback * bool)) :
  chooserInv reqs a es ->
  NoDup (map fst (reqs ++ added)) ->
  (forall c, next = Some c -> added = [(c, false)]) ->
  (next = None -> added = [] \/ exists c, added = [(c, true)]) ->
  chooserInv (reqs ++ added) (with_filePathCallback next a)
    (es ++ match filePathCallback a with
           | Some c0 => [ReceiveValue c0 v]
           | None => []
           end).
Proof.
  intros (Hstored & Hreqs & Hother) Hnodup Hnext Hnone.
  assert (Hfresh : forall c t, In (c, t) added -> ~ In c (map fst reqs)).
  { intros c t Hin Hold. rewrite map_app in Hnodup.
    apply NoDup_app in Hnodup. destruct Hnodup as (_ & Hdisj & _).
    apply (Hdisj c); [now apply list_elem_of_In|].
    apply list_elem_of_In, in_map_iff. now exists (c, t). }
  assert (Hres : forall cb,
            resolutions cb
              (es ++ match filePathCallback a with
                     | Some c0 => [ReceiveValue c0 v]
                     | None => []
                     end) =
            (resolutions cb es
             + if decide (filePathCallback a = Some cb) then 1 else 0)%nat).
  { intros cb. rewrite resolutions_app. f_equal.
    destruct (filePathCallback a) as [c0|]; [|now destruct (decide _)].
    rewrite resolutions_one.
    destruct (decide (c0 = cb)) as [->|Hne].
    - now rewrite decide_True.
    - rewrite decide_False; [reflexivity|congruence]. }
  assert (Hadded : forall c t, In (c, t) added ->
            added = [(c, t)] /\ next = (if t then None else Some c)).
  { intros c t Hin. destruct next as [c'|].
    - rewrite (Hnext c' eq_refl) in *. destruct Hin as [Hin|[]].
      now inversion Hin; subst.
    - destruct (Hnone eq_refl) as [->|(c' & ->)]; [destruct Hin|].
      destruct Hin as [Hin|[]]. now inversion Hin; subst. }
  unfold chooserInv. cbn [filePathCallback with_filePathCallback].
  split; [|split].
  - intros cb ->. apply in_or_app. right.
    rewrite (Hnext cb eq_refl). now left.
  - intros cb thrown Hin. rewrite Hres.
    apply in_app_or in Hin. destruct Hin as [Hin|Hin].
    + rewrite (Hreqs cb thrown Hin).
      assert (Hne : next <> Some cb).
      { intros ->. apply (Hfresh cb false).
        - rewrite (Hnext cb eq_refl). now left.
        - apply in_map_iff. now exists (cb, thrown). }
      destruct thrown.
      * rewrite decide_False; [reflexivity|].
        intros Hs. specialize (Hstored cb Hs).
        rewrite map_app in Hnodup. apply NoDup_app in Hnodup.
        destruct Hnodup as (Hnd & _).
        pose proof (NoDup_fst_unique reqs cb false true Hnd Hstored Hin).
        discriminate.
      * rewrite (decide_False (P := next = Some cb)) by exact Hne.
        destruct (decide (filePathCallback a = Some cb)); reflexivity.
    + destruct (Hadded cb thrown Hin) as (_ & Hn).
      rewrite (Hother cb (Hfresh cb thrown Hin)).
      rewrite decide_False.
      * destruct thrown; [reflexivity|]. now rewrite decide_True.
      * intros Hs. apply (Hfresh cb thrown Hin).
        apply in_map_iff. exists (cb, false). split; [reflexivity|auto].
  - intros cb Hnot. rewrite Hres, Hother.
    + rewrite decide_False; [reflexivity|].
      intros Hs. apply Hnot. rewrite map_app. apply in_or_app. left.
      apply in_map_iff. exists (cb, false). split; [reflexivity|auto].
    + intros Hin. apply Hnot. rewrite map_app. apply in_or_app. now left.
Qed.

Lemma chooserInv_frame (reqs : list (Callback * bool)) (a a' : MainActivity)
  (es es' : list Effect) :
  chooserInv reqs a es ->
  filePathCallback a' = filePathCallback a ->
  (forall cb, resolutions cb es' = 0%nat) ->
  chooserInv reqs a' (es ++ es').
Proof.
  intros (Hstored & Hreqs & Hother) Heq Hzero. unfold chooserInv.
  rewrite Heq. repeat split; auto.
  - intros cb thrown Hin. rewrite resolutions_app, Hzero, Nat.add_0_r. auto.
  - intros cb Hnot. rewrite resolutions_app, Hzero, Nat.add_0_r. auto.
Qed.

Lemma chooserInv_step (reqs : list (Callback * bool)) (a : MainActivity)
  (es : list Effect) (t : Z) (e : Event) :
  chooserInv reqs a es ->
  NoDup (map fst (reqs ++ requests [(t, e)])) ->
  chooserInv (reqs ++ requests [(t, e)]) (state (step (t, e) a))
    (es ++ effects (step (t, e) a)).
Proof.
  intros Hinv Hnodup. rewrite step_eq. cbn [state effects fst snd].
  rewrite app_assoc.
  destruct (deliver_chooser t a) as (Hcb & Hzero).
  pose proof (chooserInv_frame reqs a _ es _ Hinv Hcb Hzero) as Hd.
  set (a1 := state (deliver t a)) in *.
  set (es1 := es ++ effects (deliver t a)) in *.
  destruct (isChooserEvent e) eqn:Hch.
  - destruct e as [| | | | | | |cb thrown|res| | | | | | |]; try discriminate;
      cbn [dispatch].
    + (* onShowFileChooser *)
      unfold discard. rewrite bind_eq, onShowFileChooser_eq.
      cbn [state effects fst snd ret]. rewrite app_nil_r, app_assoc.
      apply chooserInv_frame with
        (a := with_filePathCallback (if thrown then None else cb) a1);
        [|reflexivity|intros c; now destruct thrown].
      apply chooserInv_replace; [exact Hd|exact Hnodup| |].
      * intros c Hc. destruct thrown; [discriminate|]. now subst cb.
      * intros Hc. destruct cb as [c|]; [|now left].
        destruct thrown; [|discriminate]. right. now exists c.
    + (* fileChooserLauncher *)
      rewrite fileChooserLauncher_eq. cbn [state effects fst snd].
      cbn [requests omap snd] in *. 
      apply chooserInv_replace; [exact Hd|exact Hnodup|discriminate|now left].
  - destruct (dispatch_frame_chooser e a1 Hch) as (Hcb' & Hzero').
    assert (Hnone : requests [(t, e)] = []).
    { destruct e; try reflexivity; discriminate. }
    rewrite Hnone, app_nil_r.
    now apply chooserInv_frame with (a := a1).
Qed.

Lemma requests_app (tr tr' : list (Z * Event)) :
  requests (tr ++ tr') = requests tr ++ requests tr'.
Proof. apply omap_app. Qed.

Lemma chooserInv_session (target : string) (splash : bool) (h : Host)
  (tr : list (Z * Event)) :
  NoDup (map fst (requests tr)) ->
  let r := session target splash h tr in
  chooserInv (requests tr) (state r) (effects r).
Proof.
  cbv zeta. induction tr as [|[t e] tr IH] using rev_ind; intros Hnodup.
  - rewrite session_eq. cbn [runTrace ret state effects fst snd requests omap].
    rewrite app_nil_r.
    destruct (boot_facts target splash h) as (_ & _ & _ & _ & Hcb & Hzero & _).
    unfold chooserInv. rewrite Hcb. repeat split; auto; try discriminate.
    intros cb thrown [].
  - rewrite requests_app in *. rewrite session_snoc. cbn [state effects fst snd].
    apply chooserInv_step; [|exact Hnodup].
    apply IH. rewrite map_app in Hnodup. now apply NoDup_app in Hnodup.
Qed.

Lemma length_le_one_of_constant {A} (l : list A) (x : A) :
  NoDup l -> (forall y, In y l -> y = x) -> (List.length l <= 1)%nat.
Proof.
  intros Hnd Hall. destruct l as [|a [|b l]]; cbn; try lia.
  exfalso. apply NoDup_cons in Hnd. destruct Hnd as (Hnotin & _).
  apply Hnotin. rewrite (Hall a), <- (Hall b); cbn; auto.
  now left.
Qed.

Lemma pending_stored (reqs : list (Callback * bool)) (a : MainActivity)
  (es : list Effect) :
  chooserInv reqs a es ->
  NoDup (map fst reqs) ->
  (forall q, In q (pending reqs es) -> filePathCallback a = Some (fst q))
  /\ (List.length (pending reqs es) <= 1)%nat.
Proof.
  intros (Hstored & Hreqs & _) Hnodup.
  assert (Hall : forall q, In q (pending reqs es) ->
                           filePathCallback a = Some (fst q) /\ snd q = false).
  { intros [cb thrown] Hq. unfold pending in Hq.
    apply List.filter_In in Hq. destruct Hq as (Hin & Hq). cbn [fst snd] in *.
    apply andb_true_iff in Hq. destruct Hq as (Hthrown & Hzero).
    apply negb_true_iff in Hthrown. subst thrown.
    apply Nat.eqb_eq in Hzero. rewrite (Hreqs cb false Hin) in Hzero.
    destruct (decide (filePathCallback a = Some cb)); [auto|discriminate]. }
  split; [intros q Hq; now apply Hall|].
  destruct (filePathCallback a) as [c|] eqn:Hcb.
  - apply length_le_one_of_constant with (x := (c, false)).
    + unfold pending. apply NoDup_ListNoDup, List.NoDup_filter.
      apply NoDup_map_inv with (f := fst). now apply NoDup_ListNoDup.
    + intros [cb thrown] Hq. destruct (Hall _ Hq) as (Hc & Ht).
      cbn in Hc, Ht. congruence.
  - destruct (pending reqs es) as [|q l]; [cbn; lia|].
    destruct (Hall q (or_introl eq_refl)) as (Hc & _). discriminate.
Qed.

(** C1, counterexample.  When launching the picker raises, the callback
    just stored is cleared without receiving a value and the handler returns
    [false]; nothing resolves it later either. *)
Lemma launch_error_drops_callback_unresolved :
  let h := mkHost 34 0 false false (Some (Some true)) false in
  let live := "https://example.org/" in
  let a := state (deliver 1000 (state (session live false h []))) in
  let r := onShowFileChooser (Some 7%nat) true a in
  let later :=
    session live false h
      [ (1000, ShowFileChooser (Some 7%nat) true);
        (2000, FileChooserResult (mkResult 0 None)) ] in
  result r = false
  /\ filePathCallback (state r) = None
  /\ resolutions 7%nat (effects r) = 0%nat
  /\ resolutions 7%nat (effects later) = 0%nat.
Proof. cbv zeta. repeat split. Qed.

(** C1, amended.  [onShowFileChooser] first hands an empty result to the
    callback already stored, if any, then stores the new one; when the picker
    is launched it returns [true], and when launching raises it clears the
    new callback without resolving it and returns [false].  A picker result
    hands the stored callback its value (the selected document on success,
    an empty result otherwise) and clears it.  In every session whose
    file-chooser requests carry distinct callbacks, at most one request is
    pending and it is the stored one; a request whose picker was launched has
    received exactly one value unless it is still the stored one, and a
    request whose launch raised has received none. *)
Theorem file_chooser_discipline :
  (forall (a : MainActivity) (cb : option Callback) (launchThrows : bool),
      onShowFileChooser cb launchThrows a =
      (negb launchThrows,
       with_filePathCallback (if launchThrows then None else cb) a,
       match filePathCallback a with
       | Some c0 => [ReceiveValue c0 None]
       | None => []
       end ++ (if launchThrows then [] else [LaunchPicker])))
  /\ (forall (a : MainActivity) (res : ActivityResult),
        fileChooserLauncher res a =
        (tt, with_filePathCallback None a,
         match filePathCallback a with
         | Some c0 =>
             [ReceiveValue c0
                (if resultCode res =? RESULT_OK
                 then match data res with
                      | Some (Some dataString) => Some [dataString]
                      | _ => None
                      end
                 else None)]
         | None => []
         end))
  /\ (forall (target : string) (splash : bool) (h : Host)
             (tr : list (Z * Event)),
        NoDup (map fst (requests tr)) ->
        let r := session target splash h tr in
        (List.length (pending (requests tr) (effects r)) <= 1)%nat
        /\ (forall q, In q (pending (requests tr) (effects r)) ->
                      filePathCallback (state r) = Some (fst q))
        /\ (forall cb thrown,
              In (cb, thrown) (requests tr) ->
              resolutions cb (effects r) =
              if thrown then 0%nat
              else if decide (filePathCallback (state r) = Some cb)
                   then 0%nat else 1%nat)).
Proof.
  split; [intros; apply onShowFileChooser_eq|].
  split; [intros; apply fileChooserLauncher_eq|].
  intros target splash h tr Hnodup r.
  pose proof (chooserInv_session target splash h tr Hnodup) as Hinv.
  cbv zeta in Hinv. fold r in Hinv.
  destruct (pending_stored _ _ _ Hinv Hnodup) as (Hstored & Hlen).
  split; [exact Hlen|]. split; [exact Hstored|].
  now destruct Hinv as (_ & Hreqs & _).
Qed.

Lemma file_chooser_discipline_witness :
  let h := mkHost 34 0 false false (Some (Some true)) false in
  let tr := [ (1000, ShowFileChooser (Some 1%nat) false);
              (1500, ShowFileChooser (Some 2%nat) false);
              (3000, FileChooserResult
                       (mkResult RESULT_OK (Some (Some "content://doc/1")))) ] in
  let r := session "https://example.org/" false h tr in
  NoDup (map fst (requests tr))
  /\ (List.length (pending (requests tr) (effects r)) <= 1)%nat
  /\ resolutions 1%nat (effects r) = 1%nat
  /\ resolutions 2%nat (effects r) = 1%nat.
Proof.
  cbv zeta.
  set (tr := [ (1000, ShowFileChooser (Some 1%nat) false);
               (1500, ShowFileChooser (Some 2%nat) false);
               (3000, FileChooserResult
                        (mkResult RESULT_OK (Some (Some "content://doc/1")))) ]).
  assert (Hnodup : NoDup (map fst (requests tr))).
  { apply (bool_decide_eq_true_1 (NoDup (map fst (requests tr)))). reflexivity. }
  split; [exact Hnodup|].
  destruct (proj2 (proj2 file_chooser_discipline) "https://example.org/" false
              (mkHost 34 0 false false (Some (Some true)) false) tr Hnodup)
    as (Hlen & _ & Hres).
  split; [exact Hlen|].
  split; [exact (Hres 1%nat false (or_introl eq_refl))
         |exact (Hres 2%nat false (or_intror (or_introl eq_refl)))].
Defined.

(** * Further properties of the activity *)

(** ** Sessions, step by step *)

(** A property of the state kept by every step, with a property of the
    effects of every step, holds along a trace. *)
Lemma runTrace_preserves (ok : Z * Event -> Prop) (P : MainActivity -> Prop)
  (Q : Effect -> Prop) :
  (forall te a, ok te -> P a ->
                P (state (step te a)) /\ Forall Q (effects (step te a))) ->
  forall tr a,
    Forall ok tr -> P a ->
    P (state (runTrace tr a)) /\ Forall Q (effects (runTrace tr a)).
Proof.
  intros Hstep tr. induction tr as [|te tr IH]; intros a Hok HP.
  - cbn. split; [exact HP|constructor].
  - apply Forall_cons in Hok. destruct Hok as (Hte & Hok).
    rewrite runTrace_cons. cbn [state effects fst snd].
    destruct (Hstep te a Hte HP) as (HP1 & HQ1).
    destruct (IH _ Hok HP1) as (HP2 & HQ2).
    split; [exact HP2|]. apply Forall_app. now split.
Qed.

Lemma Forall_true {A} (l : list A) : Forall (fun _ => True) l.
Proof. induction l; constructor; auto. Qed.

Lemma deliver_fields (t : Z) (a : MainActivity) :
  let a' := state (deliver t a) in
  lastLiveUrl a' = lastLiveUrl a
  /\ isOffline a' = isOffline a
  /\ progressBarVisible a' = progressBarVisible a
  /\ myWebView a' = myWebView a
  /\ LIVE_URL a' = LIVE_URL a
  /\ splashConfigured a' = splashConfigured a
  /\ isFinishing (host a') = isFinishing (host a)
  /\ isDestroyed (host a') = isDestroyed (host a)
  /\ SDK_INT (host a') = SDK_INT (host a)
  /\ backgroundLocationGranted (host a') = backgroundLocationGranted (host a)
  /\ activeNetwork (host a') = activeNetwork (host a).
Proof. cbv zeta. rewrite deliver_eq. repeat split. Qed.

Lemma deliver_effects_launches (t : Z) (a : MainActivity) :
  Forall (fun e => isPermissionLaunch e = true) (effects (deliver t a))
  /\ (isFinishing (host a) = true -> effects (deliver t a) = []).
Proof.
  rewrite deliver_eq. cbn [effects snd]. unfold effectsOfRunnables, aliveb.
  split.
  - destruct (_ && _); [|constructor].
    induction (List.filter _ _) as [|m l IH]; constructor; auto.
  - intros ->. reflexivity.
Qed.

(** *** Where [lastLiveUrl] and the loads come from *)

Lemma dispatch_lastLiveUrl (e : Event) (a : MainActivity) :
  lastLiveUrl (state (dispatch e a)) =
  match e with
  | PageStarted (Some u) => if isAssetUrl u then lastLiveUrl a else u
  | _ => lastLiveUrl a
  end.
Proof.
  destruct e; cbn [dispatch].
  all: try (rewrite onPermissionRequest_eq; destruct request; reflexivity).
  all: destruct a as [live sp hst wv pb sv llu off dbl fpc q];
    destruct hst as [sdk up fin des net bg].
  all: unfold_handlers; cbn; split_cases; reflexivity.
Qed.

Lemma dispatch_loads (e : Event) (a : MainActivity) :
  loads (effects (dispatch e a)) =
  match e with
  | NetworkAvailable =>
      if isFinishing (host a) then []
      else if bool_decide (url (myWebView a) = Some LOCAL_URL)
           then [lastLiveUrl a] else []
  | _ => []
  end.
Proof.
  destruct e; cbn [dispatch].
  all: try (rewrite onPermissionRequest_eq; destruct request;
            cbn [effects snd]; rewrite ?loads_app, ?loads_requestLog;
            reflexivity).
  all: try (rewrite onAvailable_eq;
            destruct (isFinishing (host a)); [reflexivity|];
            destruct (bool_decide _); cbn [effects snd];
            rewrite loads_app, loads_toastOn; reflexivity).
  all: destruct a as [live sp hst wv pb sv llu off dbl fpc q];
    destruct hst as [sdk up fin des net bg].
  all: unfold_handlers; cbn; split_cases; reflexivity.
Qed.

Lemma loads_deliver (t : Z) (a : MainActivity) : loads (effects (deliver t a)) = [].
Proof.
  rewrite deliver_eq. cbn [effects snd]. unfold effectsOfRunnables.
  destruct (aliveb a); [|reflexivity].
  induction (List.filter _ _) as [|m l IH]; [reflexivity|exact IH].
Qed.

Lemma step_lastLiveUrl (t : Z) (e : Event) (a : MainActivity) :
  lastLiveUrl (state (step (t, e) a)) =
  match e with
  | PageStarted (Some u) => if isAssetUrl u then lastLiveUrl a else u
  | _ => lastLiveUrl a
  end.
Proof.
  rewrite step_eq. cbn [state fst snd]. rewrite dispatch_lastLiveUrl.
  destruct (deliver_fields t a) as (-> & _). reflexivity.
Qed.

Lemma step_loads (t : Z) (e : Event) (a : MainActivity) :
  loads (effects (step (t, e) a)) =
  match e with
  | NetworkAvailable =>
      if isFinishing (host a) then []
      else if bool_decide (url (myWebView a) = Some LOCAL_URL)
           then [lastLiveUrl a] else []
  | _ => []
  end.
Proof.
  rewrite step_eq. cbn [effects snd].
  rewrite loads_app, loads_deliver, dispatch_loads. cbn [app].
  destruct (deliver_fields t a)
    as (-> & _ & _ & -> & _ & _ & -> & _). reflexivity.
Qed.

Lemma Forall_loads (Q : string -> Prop) (es : list Effect) :
  Forall Q (loads es) <->
  Forall (fun e => match e with LoadUrl u => Q u | _ => True end) es.
Proof.
  induction es as [|e es IH]; cbn; [split; constructor|].
  destruct e; cbn; rewrite ?Forall_cons, IH; tauto.
Qed.

Lemma boot_loads (target : string) (splash : bool) (h : Host) :
  let a0 := newActivity target splash h in
  loads (effects (onCreate a0)) =
  [if result (isNetworkAvailable a0) then target else LOCAL_URL]
  /\ lastLiveUrl (state (onCreate a0)) = target
  /\ isOffline (state (onCreate a0)) = negb (result (isNetworkAvailable a0))
  /\ url (myWebView (state (onCreate a0))) =
     Some (if result (isNetworkAvailable a0) then target else LOCAL_URL).
Proof.
  cbv zeta. unfold newActivity. destruct h as [sdk up fin des net bg].
  unfold_handlers; cbn; split_cases; repeat split.
Qed.

(** X1.  In a session of an app whose target URL lies outside the assets,
    [lastLiveUrl] is never a URL under the asset prefix, and of the URLs the
    activity loads only the first, loaded by boot, can be one: every later
    load is a URL outside the assets. *)
Theorem lastLiveUrl_never_an_asset :
  forall (target : string) (splash : bool) (h : Host) (tr : list (Z * Event)),
    isAssetUrl target = false ->
    let r := session target splash h tr in
    isAssetUrl (lastLiveUrl (state r)) = false
    /\ exists later : list string,
         loads (effects r) =
         (if result (isNetworkAvailable (newActivity target splash h))
          then target else LOCAL_URL) :: later
         /\ Forall (fun u => isAssetUrl u = false) later.
Proof.
  intros target splash h tr Htarget r. subst r.
  rewrite session_eq. cbn [state effects fst snd].
  destruct (boot_loads target splash h) as (Hload & Hlast0 & _).
  cbv zeta in Hload, Hlast0.
  destruct (runTrace_preserves (fun _ => True)
              (fun a => isAssetUrl (lastLiveUrl a) = false)
              (fun e => match e with
                        | LoadUrl u => isAssetUrl u = false
                        | _ => True
                        end)) with (tr := tr)
    (a := state (onCreate (newActivity target splash h)))
    as (Hlast & Hloads); auto using Forall_true.
  - intros [t e] a _ Ha. split.
    + rewrite step_lastLiveUrl. destruct e as [| | |[u|]| | | | | | | | | | | |];
        auto. now destruct (isAssetUrl u) eqn:Hu.
    + apply Forall_loads. rewrite step_loads.
      destruct e; try constructor.
      destruct (isFinishing (host a)); [constructor|].
      destruct (bool_decide _); repeat constructor. exact Ha.
  - now rewrite Hlast0.
  - split; [exact Hlast|].
    exists (loads (effects (runTrace tr
              (state (onCreate (newActivity target splash h)))))).
    rewrite loads_app, Hload. split; [reflexivity|now apply Forall_loads].
Qed.

Lemma lastLiveUrl_never_an_asset_witness :
  let h := mkHost 34 0 false false None false in
  let tr := [ (500, PageStarted (Some "file:///android_asset/www/index.html"));
              (700, PageFinished (Some "file:///android_asset/www/index.html"));
              (4000, NetworkState (Some (Some true)));
              (4000, NetworkAvailable) ] in
  isAssetUrl "https://example.org/" = false
  /\ isAssetUrl
       (lastLiveUrl (state (session "https://example.org/" false h tr))) = false.
Proof.
  cbv zeta. split; [reflexivity|].
  exact (proj1 (lastLiveUrl_never_an_asset "https://example.org/" false
                  (mkHost 34 0 false false None false) _ eq_refl)).
Defined.

(** *** A finishing activity *)

Lemma toasts_app (es es' : list Effect) :
  toasts (es ++ es') = toasts es ++ toasts es'.
Proof. apply omap_app. Qed.

Lemma toasts_requestLog (resources : list string) :
  toasts (requestLog resources) = [].
Proof. induction resources as [|r rs IH]; [reflexivity|exact IH]. Qed.

Lemma dispatch_finishing (e : Event) (a : MainActivity) :
  isFinishing (host a) = true ->
  isFinishing (host (state (dispatch e a))) = true
  /\ toasts (effects (dispatch e a)) = [].
Proof.
  intros Hfin. destruct e; cbn [dispatch].
  all: try (rewrite onPermissionRequest_eq; destruct request;
            cbn [state effects fst snd];
            rewrite ?toasts_app, ?toasts_requestLog; split; auto).
  all: destruct a as [live sp hst wv pb sv llu off dbl fpc q];
    destruct hst as [sdk up fin des net bg]; cbn in Hfin; subst fin.
  all: unfold_handlers; cbn; split_cases; split; reflexivity.
Qed.

(** X2.  Once the activity is finishing it stays finishing, and whatever
    events and due timers follow, it shows no toast, loads no URL and
    launches no permission batch. *)
Theorem finishing_activity_is_quiet :
  forall (a : MainActivity) (tr : list (Z * Event)),
    isFinishing (host a) = true ->
    let r := runTrace tr a in
    isFinishing (host (state r)) = true
    /\ toasts (effects r) = []
    /\ loads (effects r) = []
    /\ launched (effects r) = [].
Proof.
  intros a tr Hfin r. subst r. revert a Hfin.
  induction tr as [|[t e] tr IH]; intros a Hfin; [now cbn|].
  rewrite runTrace_cons. cbn [state effects fst snd].
  destruct (deliver_fields t a) as (_ & _ & _ & _ & _ & _ & Hf & _).
  cbv zeta in Hf. rewrite Hfin in Hf.
  destruct (deliver_effects_launches t a) as (_ & Hnone).
  specialize (Hnone Hfin).
  destruct (dispatch_finishing e _ Hf) as (Hf' & Htoast).
  destruct (dispatch_frame e (state (deliver t a))) as (_ & _ & Hlaunch & _).
  assert (Hstep : isFinishing (host (state (step (t, e) a))) = true
                  /\ toasts (effects (step (t, e) a)) = []
                  /\ loads (effects (step (t, e) a)) = []
                  /\ launched (effects (step (t, e) a)) = []).
  { rewrite step_loads, Hfin. rewrite step_eq. cbn [state effects fst snd].
    rewrite Hnone. cbn [app]. repeat split; auto. now destruct e. }
  destruct Hstep as (Hs & Ht & Hl & Hp).
  destruct (IH _ Hs) as (Hs' & Ht' & Hl' & Hp').
  rewrite toasts_app, loads_app, launched_app, Ht, Hl, Hp, Ht', Hl', Hp'.
  repeat split. exact Hs'.
Qed.

Lemma finishing_activity_is_quiet_witness :
  let h := mkHost 34 0 false false (Some (Some true)) false in
  let a := state (session "https://example.org/" false h [ (1000, BridgeClose) ]) in
  let tr := [ (2000, WebViewState (mkWebView (Some LOCAL_URL) false));
              (2000, NetworkAvailable); (3000, BackPressed);
              (6000, NetworkLost) ] in
  isFinishing (host a) = true
  /\ toasts (effects (runTrace tr a)) = []
  /\ loads (effects (runTrace tr a)) = []
  /\ launched (effects (runTrace tr a)) = [].
Proof.
  cbv zeta. split; [reflexivity|].
  pose proof (finishing_activity_is_quiet
                (state (session "https://example.org/" false
                          (mkHost 34 0 false false (Some (Some true)) false)
                          [ (1000, BridgeClose) ]))
                [ (2000, WebViewState (mkWebView (Some LOCAL_URL) false));
                  (2000, NetworkAvailable); (3000, BackPressed);
                  (6000, NetworkLost) ] eq_refl) as H.
  cbv zeta in H. exact (proj2 H).
Defined.

(** *** The offline flag *)

Lemma dispatch_isOffline (e : Event) (a : MainActivity) :
  isOffline (state (dispatch e a)) = isOffline a.
Proof.
  destruct e; cbn [dispatch].
  all: try (rewrite onPermissionRequest_eq; destruct request; reflexivity).
  all: destruct a as [live sp hst wv pb sv llu off dbl fpc q];
    destruct hst as [sdk up fin des net bg].
  all: unfold_handlers; cbn; split_cases; reflexivity.
Qed.

(** X3.  The flag [isOffline] is decided by boot and never changes
    afterwards: at any point of any session it tells whether [onCreate]
    found no connectivity, whatever connectivity events, page loads and
    reloads have happened since. *)
Theorem isOffline_fixed_at_boot :
  forall (target : string) (splash : bool) (h : Host) (tr : list (Z * Event)),
    isOffline (state (session target splash h tr)) =
    negb (result (isNetworkAvailable (newActivity target splash h))).
Proof.
  intros target splash h tr. rewrite session_eq. cbn [state fst snd].
  destruct (boot_loads target splash h) as (_ & _ & Hoff & _).
  cbv zeta in Hoff. rewrite <- Hoff.
  generalize (state (onCreate (newActivity target splash h))). clear Hoff.
  induction tr as [|[t e] tr IH]; intros a; [reflexivity|].
  rewrite runTrace_cons. cbn [state fst snd]. rewrite IH.
  rewrite step_eq. cbn [state fst snd]. rewrite dispatch_isOffline.
  now destruct (deliver_fields t a) as (_ & -> & _).
Qed.

(** *** The last live page *)

(** X4.  After a page start for a URL [u] outside the assets, and as long
    as no further page start for such a URL follows, [lastLiveUrl] is [u]:
    it is the URL of the most recent page start outside the assets. *)
Theorem lastLiveUrl_is_latest_live_page_start :
  forall (a : MainActivity) (t : Z) (u : string) (post : list (Z * Event)),
    isAssetUrl u = false ->
    Forall (fun te => startsLivePage (snd te) = false) post ->
    lastLiveUrl (state (runTrace ((t, PageStarted (Some u)) :: post) a)) = u.
Proof.
  intros a t u post Hu Hpost.
  rewrite runTrace_cons. cbn [state fst snd].
  assert (Hstart : lastLiveUrl (state (step (t, PageStarted (Some u)) a)) = u).
  { rewrite step_lastLiveUrl. now rewrite Hu. }
  revert Hstart. generalize (state (step (t, PageStarted (Some u)) a)).
  induction post as [|[t' e] post IH]; intros b Hb; [exact Hb|].
  apply Forall_cons in Hpost. destruct Hpost as (He & Hpost).
  cbn [snd] in He.
  rewrite runTrace_cons. cbn [state fst snd]. apply IH; [exact Hpost|].
  rewrite step_lastLiveUrl, Hb.
  destruct e as [| | |[v|]| | | | | | | | | | | |]; auto.
  cbn in He. apply negb_false_iff in He. now rewrite He.
Qed.

Lemma lastLiveUrl_is_latest_live_page_start_witness :
  let h := mkHost 34 0 false false (Some (Some true)) false in
  let a := state (session "https://example.org/" false h []) in
  let post := [ (900, PageFinished (Some "https://example.org/shop"));
                (3000, NetworkLost);
                (3500, PageStarted (Some "file:///android_asset/www/index.html")) ] in
  isAssetUrl "https://example.org/shop" = false
  /\ Forall (fun te => startsLivePage (snd te) = false) post
  /\ lastLiveUrl
       (state (runTrace ((500, PageStarted (Some "https://example.org/shop"))
                           :: post) a)) = "https://example.org/shop".
Proof.
  cbv zeta.
  assert (Hpost : Forall (fun te => startsLivePage (snd te) = false)
                    [ (900, PageFinished (Some "https://example.org/shop"));
                      (3000, NetworkLost);
                      (3500, PageStarted
                               (Some "file:///android_asset/www/index.html")) ]).
  { repeat constructor. }
  split; [reflexivity|]. split; [exact Hpost|].
  exact (lastLiveUrl_is_latest_live_page_start _ 500 "https://example.org/shop"
           _ eq_refl Hpost).
Defined.

(** *** Back from an offline boot *)

Lemma dispatch_keepsDocument (e : Event) (a : MainActivity) :
  keepsDocument e = true ->
  myWebView (state (dispatch e a)) = myWebView a
  /\ lastLiveUrl (state (dispatch e a)) = lastLiveUrl a
  /\ isFinishing (host (state (dispatch e a))) = isFinishing (host a).
Proof.
  intros Hkeep. rewrite dispatch_lastLiveUrl.
  assert (Hlast : match e with
                  | PageStarted (Some u) =>
                      if isAssetUrl u then lastLiveUrl a else u
                  | _ => lastLiveUrl a
                  end = lastLiveUrl a).
  { destruct e as [| | |[u|]| | | | | | | | | | | |]; auto.
    cbn in Hkeep. now rewrite Hkeep. }
  rewrite Hlast. clear Hlast.
  destruct e; cbn [dispatch keepsDocument] in *; try discriminate.
  all: try (rewrite onPermissionRequest_eq; destruct request; repeat split).
  all: destruct a as [live sp hst wv pb sv llu off dbl fpc q];
    destruct hst as [sdk up fin des net bg].
  all: unfold_handlers; cbn; split_cases; repeat split.
Qed.

(** X5.  An app booted without connectivity shows the fallback document;
    as long as the view is not navigated elsewhere and the activity is not
    asked to finish, the first connectivity-available event loads the
    configured target URL, and nothing else. *)
Theorem offline_boot_recovers_to_target :
  forall (target : string) (splash : bool) (h : Host)
         (tr : list (Z * Event)) (t : Z),
    result (isNetworkAvailable (newActivity target splash h)) = false ->
    isFinishing h = false ->
    Forall (fun te => keepsDocument (snd te) = true) tr ->
    let a := state (session target splash h tr) in
    url (myWebView a) = Some LOCAL_URL
    /\ loads (effects (step (t, NetworkAvailable) a)) = [target]
    /\ url (myWebView (state (step (t, NetworkAvailable) a))) = Some target.
Proof.
  intros target splash h tr t Hnet Hfin Hkeep a. subst a.
  rewrite session_eq. cbn [state fst snd].
  destruct (boot_loads target splash h) as (_ & Hlast & _ & Hurl).
  destruct (boot_facts target splash h) as (_ & Hhost & _).
  cbv zeta in Hlast, Hurl, Hhost. rewrite Hnet in Hurl.
  set (P := fun a : MainActivity =>
              url (myWebView a) = Some LOCAL_URL
              /\ lastLiveUrl a = target
              /\ isFinishing (host a) = false).
  destruct (runTrace_preserves (fun te => keepsDocument (snd te) = true) P
              (fun _ => True)) with (tr := tr)
    (a := state (onCreate (newActivity target splash h)))
    as ((Hu & Hl & Hf) & _); auto.
  - intros [t' e] b He (Hu & Hl & Hf). cbn [snd] in He.
    split; [|apply Forall_true].
    rewrite step_eq. cbn [state fst snd].
    destruct (dispatch_keepsDocument e (state (deliver t' b)) He)
      as (Hw & Hl' & Hf').
    destruct (deliver_fields t' b) as (Hl0 & _ & _ & Hw0 & _ & _ & Hf0 & _).
    cbv zeta in Hl0, Hw0, Hf0. unfold P.
    rewrite Hw, Hl', Hf', Hl0, Hw0, Hf0. auto.
  - unfold P. rewrite Hurl, Hlast, Hhost. auto.
  - split; [exact Hu|]. rewrite step_loads, Hf, Hu.
    rewrite bool_decide_eq_true_2 by reflexivity.
    split; [now rewrite Hl|].
    rewrite step_eq. cbn [state fst snd dispatch]. rewrite onAvailable_eq.
    destruct (deliver_fields t (state (runTrace tr
                (state (onCreate (newActivity target splash h))))))
      as (Hl0 & _ & _ & Hw0 & _ & _ & Hf0 & _).
    cbv zeta in Hl0, Hw0, Hf0.
    rewrite Hf0, Hf, Hw0, Hu, bool_decide_eq_true_2 by reflexivity.
    cbn [state fst snd url myWebView with_webview]. now rewrite Hl0, Hl.
Qed.

Lemma offline_boot_recovers_to_target_witness :
  let h := mkHost 34 0 false false None false in
  let tr := [ (300, PageStarted (Some LOCAL_URL));
              (600, PageFinished (Some LOCAL_URL));
              (2000, OverrideUrlLoading (Some "https://example.org/a"));
              (8000, NetworkState (Some (Some true))) ] in
  let a := state (session "https://example.org/" true h tr) in
  result (isNetworkAvailable (newActivity "https://example.org/" true h)) = false
  /\ isFinishing h = false
  /\ Forall (fun te => keepsDocument (snd te) = true) tr
  /\ loads (effects (step (8000, NetworkAvailable) a)) = ["https://example.org/"].
Proof.
  cbv zeta.
  assert (Hkeep : Forall (fun te => keepsDocument (snd te) = true)
                    [ (300, PageStarted (Some LOCAL_URL));
                      (600, PageFinished (Some LOCAL_URL));
                      (2000, OverrideUrlLoading (Some "https://example.org/a"));
                      (8000, NetworkState (Some (Some true))) ]).
  { repeat constructor. }
  split; [reflexivity|]. split; [reflexivity|]. split; [exact Hkeep|].
  pose proof (offline_boot_recovers_to_target "https://example.org/" true
                (mkHost 34 0 false false None false) _ 8000
                eq_refl eq_refl Hkeep) as H.
  cbv zeta in H. exact (proj1 (proj2 H)).
Defined.

(** *** The progress indicator *)

Lemma dispatch_progress (e : Event) (a : MainActivity) :
  progressBarVisible (state (dispatch e a)) =
  match e with
  | PageStarted _ =>
      if isFinishing (host a) then progressBarVisible a else true
  | PageFinished _ => false
  | _ => progressBarVisible a
  end.
Proof.
  destruct e; cbn [dispatch].
  all: try (rewrite onPermissionRequest_eq; destruct request; reflexivity).
  all: destruct a as [live sp hst wv pb sv llu off dbl fpc q];
    destruct hst as [sdk up fin des net bg].
  all: unfold_handlers; cbn; split_cases; reflexivity.
Qed.

Lemma step_progress (t : Z) (e : Event) (a : MainActivity) :
  progressBarVisible (state (step (t, e) a)) =
  match e with
  | PageStarted _ =>
      if isFinishing (host a) then progressBarVisible a else true
  | PageFinished _ => false
  | _ => progressBarVisible a
  end.
Proof.
  rewrite step_eq. cbn [state fst snd]. rewrite dispatch_progress.
  destruct (deliver_fields t a) as (_ & _ & -> & _ & _ & _ & -> & _).
  reflexivity.
Qed.

(** X6.  A page-finished signal hides the progress indicator, on a
    finishing activity too, and it stays hidden until the next page start;
    a page start on an activity that is not finishing shows it, and it stays
    shown until the next page-finished signal.  No other event touches it. *)
Theorem progress_follows_page_events :
  forall (a : MainActivity) (t : Z) (u : option string)
         (post : list (Z * Event)),
    (Forall (fun te => isPageStarted (snd te) = false) post ->
     progressBarVisible
       (state (runTrace ((t, PageFinished u) :: post) a)) = false)
    /\ (isFinishing (host a) = false ->
        Forall (fun te => isPageFinished (snd te) = false) post ->
        progressBarVisible
          (state (runTrace ((t, PageStarted u) :: post) a)) = true).
Proof.
  intros a t u post. split.
  - intros Hpost. rewrite runTrace_cons. cbn [state fst snd].
    assert (Hhid : progressBarVisible (state (step (t, PageFinished u) a)) = false)
      by now rewrite step_progress.
    revert Hhid. generalize (state (step (t, PageFinished u) a)).
    induction post as [|[t' e] post IH]; intros b Hb; [exact Hb|].
    apply Forall_cons in Hpost. destruct Hpost as (He & Hpost).
    rewrite runTrace_cons. cbn [state fst snd]. apply IH; [exact Hpost|].
    rewrite step_progress, Hb. destruct e; try reflexivity. discriminate.
  - intros Hfin Hpost. rewrite runTrace_cons. cbn [state fst snd].
    assert (Hvis : progressBarVisible (state (step (t, PageStarted u) a)) = true)
      by now rewrite step_progress, Hfin.
    revert Hvis. generalize (state (step (t, PageStarted u) a)).
    induction post as [|[t' e] post IH]; intros b Hb; [exact Hb|].
    apply Forall_cons in Hpost. destruct Hpost as (He & Hpost).
    rewrite runTrace_cons. cbn [state fst snd]. apply IH; [exact Hpost|].
    rewrite step_progress, Hb. destruct e; try reflexivity; try discriminate.
    now destruct (isFinishing (host b)).
Qed.

(** *** The splash overlay, once more *)

(** X7.  Once the splash overlay is hidden (after its fade has ended, or
    from the start in an app generated without splash image) it is never
    shown again, and no later signal starts a fade. *)
Theorem splash_never_shown_again :
  forall (a : MainActivity) (tr : list (Z * Event)),
    splashLayoutVisible a = false ->
    splashLayoutVisible (state (runTrace tr a)) = false
    /\ List.filter isFade (effects (runTrace tr a)) = [].
Proof. intros a tr. apply splash_hidden_is_final. Qed.

Lemma splash_never_shown_again_witness :
  let h := mkHost 34 0 false false (Some (Some true)) false in
  let live := "https://example.org/" in
  let a := state (session live true h [ (800, PageFinished (Some live));
                                        (1200, NetworkLost) ]) in
  let tr := [ (1500, PageStarted (Some live)); (1900, PageFinished (Some live));
              (2500, PageFinished (Some live)) ] in
  splashLayoutVisible a = false
  /\ splashLayoutVisible (state (runTrace tr a)) = false
  /\ List.filter isFade (effects (runTrace tr a)) = [].
Proof.
  cbv zeta. split; [vm_compute; reflexivity|].
  apply splash_never_shown_again. vm_compute. reflexivity.
Defined.

(** *** Load errors *)

(** X9.  A load error never loads a document (in particular not the
    fallback one) and changes no state.  It shows the notice
    "Unable to load. Waiting for connection..." exactly when the failed
    request is for the main frame, its URL is not the fallback document, no
    connectivity is found and the activity is neither finishing nor
    destroyed; otherwise it shows nothing. *)
Theorem onReceivedError_only_notifies :
  forall (request : option (bool * string)) (a : MainActivity),
    let r := onReceivedError request a in
    let notice := [Toast "Unable to load. Waiting for connection..."] in
    state r = a
    /\ loads (effects r) = []
    /\ (effects r = [] \/ effects r = notice)
    /\ (effects r = notice <->
        aliveb a = true
        /\ result (isNetworkAvailable a) = false
        /\ exists failingUrl : string,
             request = Some (true, failingUrl) /\ failingUrl <> LOCAL_URL).
Proof.
  intros request a. cbv zeta.
  destruct a as [live sp hst wv pb sv llu off dbl fpc q];
    destruct hst as [sdk up fin des net bg].
  destruct request as [[[|] failingUrl]|]; unfold onReceivedError.
  2, 3: cbn; repeat split; auto; try discriminate;
        intros (_ & _ & u & Hu & _); discriminate.
  destruct (String.eqb_spec failingUrl LOCAL_URL) as [Heq|Hne].
  - unfold_handlers. unfold aliveb.
    destruct net as [[[|]|]|]; cbn; repeat split; auto; try discriminate;
      intros (_ & _ & u & Hu & Hne); injection Hu as <-; contradiction.
  - unfold_handlers. unfold aliveb.
    destruct net as [[[|]|]|], fin, des; cbn; repeat split; auto;
      try discriminate; try (now exists failingUrl);
      try (intros (? & ? & _); discriminate).
Qed.

(** *** The exit guard disarms itself *)

(** X10.  At every point of a session at most one disarm message is queued,
    the exit flag is up exactly when one is, and with no further event the
    flag is down 2000 ms later: the guard never stays armed. *)
Theorem exit_guard_disarms_itself :
  forall (target : string) (splash : bool) (h : Host) (tr : list (Z * Event)),
    timed (uptimeMillis h) tr ->
    let a := state (session target splash h tr) in
    (List.length (dueOf RunDisarmExit (mainLooper a)) <= 1)%nat
    /\ (doubleBackToExitPressedOnce a = true <->
        dueOf RunDisarmExit (mainLooper a) <> [])
    /\ forall t : Z,
         uptimeMillis (host a) + 2000 <= t ->
         doubleBackToExitPressedOnce (state (deliver t a)) = false
         /\ dueOf RunDisarmExit (mainLooper (state (deliver t a))) = [].
Proof.
  intros target splash h tr Htimed. cbv zeta.
  destruct (exitInv_session target splash h tr Htimed) as (Hinv & _).
  set (a := state (session target splash h tr)) in *.
  destruct Hinv as [(Hflag & Hq)|(Hflag & t' & _ & Hq & Hlt)].
  - rewrite Hq, Hflag. cbn [List.length]. split; [lia|].
    split; [split; congruence|].
    intros t _. now rewrite deliver_doubleBack, deliver_looper, dueOf_rest, Hq, Hflag.
  - rewrite Hq, Hflag. cbn [List.length]. split; [lia|].
    split; [split; congruence|].
    intros t Ht. rewrite deliver_doubleBack, deliver_looper, dueOf_rest, Hq.
    cbn. destruct (Z.leb_spec (t' + 2000) t) as [_|Hgt]; [now cbn|lia].
Qed.

Lemma exit_guard_disarms_itself_witness :
  let h := mkHost 34 0 false false (Some (Some true)) false in
  let live := "https://example.org/" in
  let tr := [ (1000, PageFinished (Some live)); (3000, BackPressed) ] in
  let a := state (session live false h tr) in
  timed (uptimeMillis h) tr
  /\ doubleBackToExitPressedOnce a = true
  /\ (List.length (dueOf RunDisarmExit (mainLooper a)) <= 1)%nat
  /\ (doubleBackToExitPressedOnce a = true <->
      dueOf RunDisarmExit (mainLooper a) <> [])
  /\ forall t : Z,
       uptimeMillis (host a) + 2000 <= t ->
       doubleBackToExitPressedOnce (state (deliver t a)) = false
       /\ dueOf RunDisarmExit (mainLooper (state (deliver t a))) = [].
Proof.
  cbv zeta.
  assert (Htimed : timed 0 [ (1000, PageFinished (Some "https://example.org/"));
                             (3000, BackPressed) ]).
  { cbn. lia. }
  split; [exact Htimed|]. split; [vm_compute; reflexivity|].
  exact (exit_guard_disarms_itself "https://example.org/" false
           (mkHost 34 0 false false (Some (Some true)) false) _ Htimed).
Defined.

(** *** The background-location follow-up along a session *)

Lemma deliver_background (t : Z) (a : MainActivity) :
  List.filter isBackgroundLaunch (effects (deliver t a)) = [].
Proof.
  rewrite deliver_eq. cbn [effects snd]. unfold effectsOfRunnables.
  destruct (aliveb a); [|reflexivity].
  induction (List.filter (carries RunRequestPermissions) _) as [|m l IH];
    [reflexivity|exact IH].
Qed.

Lemma dispatch_background (e : Event) (a : MainActivity) :
  List.filter isBackgroundLaunch (effects (dispatch e a)) =
  if grantsFineLocation e
     && (VERSION_CODES_Q <=? SDK_INT (host a))
     && negb (backgroundLocationGranted (host a))
  then [LaunchBackgroundLocation] else [].
Proof.
  destruct e; cbn [dispatch grantsFineLocation andb].
  all: try (rewrite onPermissionRequest_eq; destruct request;
            cbn [state effects fst snd]; try reflexivity;
            rewrite List.filter_app;
            induction l as [|x l IH]; [reflexivity|exact IH]).
  all: try (rewrite multiplePermissionLauncher_effects; cbn [effects snd];
            now destruct (_ && _)).
  all: destruct a as [live sp hst wv pb sv llu off dbl fpc q];
    destruct hst as [sdk up fin des net bg].
  all: unfold_handlers; cbn; split_cases; reflexivity.
Qed.

(** X11.  Along any run of events the background-location request is
    launched at most once per permission result that grants fine location,
    and never on a host below API level 29, whatever the results say. *)
Theorem background_followup_only_after_fine_location :
  forall (tr : list (Z * Event)) (a : MainActivity),
    (List.length (List.filter isBackgroundLaunch (effects (runTrace tr a))) <=
     List.length (List.filter (fun te => grantsFineLocation (snd te)) tr))%nat
    /\ (SDK_INT (host a) < VERSION_CODES_Q ->
        List.filter isBackgroundLaunch (effects (runTrace tr a)) = []).
Proof.
  induction tr as [|[t e] tr IH]; intros a; [cbn; split; [lia|reflexivity]|].
  rewrite runTrace_cons. cbn [state effects fst snd].
  rewrite List.filter_app, List.length_app.
  assert (Hstep : List.filter isBackgroundLaunch (effects (step (t, e) a)) =
                  if grantsFineLocation e
                     && (VERSION_CODES_Q <=? SDK_INT (host a))
                     && negb (backgroundLocationGranted (host a))
                  then [LaunchBackgroundLocation] else []).
  { rewrite step_eq. cbn [state effects fst snd].
    rewrite List.filter_app, deliver_background, dispatch_background.
    destruct (deliver_fields t a)
      as (_ & _ & _ & _ & _ & _ & _ & _ & -> & -> & _).
    reflexivity. }
  assert (Hsdk : SDK_INT (host (state (step (t, e) a))) = SDK_INT (host a)).
  { rewrite step_eq. cbn [state fst snd].
    destruct (dispatch_frame e (state (deliver t a))) as (-> & _).
    now destruct (deliver_fields t a)
      as (_ & _ & _ & _ & _ & _ & _ & _ & -> & _). }
  destruct (IH (state (step (t, e) a))) as (Hle & Hnone).
  rewrite Hstep. split.
  - cbn [List.filter snd].
    destruct (grantsFineLocation e); cbn [andb].
    + destruct (_ && _); cbn [List.length app] in *; lia.
    + cbn [List.length]. lia.
  - intros Hlow. rewrite Hnone by now rewrite Hsdk.
    destruct (Z.leb_spec VERSION_CODES_Q (SDK_INT (host a))); [lia|].
    now rewrite andb_false_r.
Qed.

(** *** A destroyed activity *)

Lemma dispatch_destroyed (e : Event) (a : MainActivity) :
  isDestroyed (host a) = true ->
  isDestroyed (host (state (dispatch e a))) = true
  /\ toasts (effects (dispatch e a)) = [].
Proof.
  intros Hdes. destruct e; cbn [dispatch].
  all: try (rewrite onPermissionRequest_eq; destruct request;
            cbn [state effects fst snd];
            rewrite ?toasts_app, ?toasts_requestLog; split; auto).
  all: destruct a as [live sp hst wv pb sv llu off dbl fpc q];
    destruct hst as [sdk up fin des net bg]; cbn in Hdes; subst des.
  all: unfold_handlers; cbn; split_cases; split; reflexivity.
Qed.

(** X12.  On a destroyed activity no toast is shown and the permission
    batch is not launched, whatever events and due timers follow: a
    permission timer that falls due after the activity was destroyed runs
    without a launch. *)
Theorem destroyed_activity_shows_nothing :
  forall (a : MainActivity) (tr : list (Z * Event)),
    isDestroyed (host a) = true ->
    let r := runTrace tr a in
    isDestroyed (host (state r)) = true
    /\ toasts (effects r) = []
    /\ launched (effects r) = [].
Proof.
  intros a tr Hdes r. subst r. revert a Hdes.
  induction tr as [|[t e] tr IH]; intros a Hdes; [now cbn|].
  rewrite runTrace_cons. cbn [state effects fst snd].
  assert (Hdead : aliveb a = false).
  { unfold aliveb. rewrite Hdes. apply andb_false_r. }
  assert (Hnone : effects (deliver t a) = []).
  { rewrite deliver_eq. cbn [effects snd]. unfold effectsOfRunnables.
    now rewrite Hdead. }
  destruct (deliver_fields t a) as (_ & _ & _ & _ & _ & _ & _ & Hd & _).
  cbv zeta in Hd. rewrite Hdes in Hd.
  destruct (dispatch_destroyed e _ Hd) as (Hd' & Htoast).
  destruct (dispatch_frame e (state (deliver t a)))
    as (_ & Hup & Hlaunch & Hq & _).
  assert (Hstep : isDestroyed (host (state (step (t, e) a))) = true
                  /\ toasts (effects (step (t, e) a)) = []
                  /\ launched (effects (step (t, e) a)) = []).
  { rewrite step_eq. cbn [state effects fst snd]. rewrite Hnone. cbn [app].
    auto. }
  destruct Hstep as (Hs & Ht & Hl).
  destruct (IH _ Hs) as (Hs' & Ht' & Hl').
  rewrite toasts_app, launched_app, Ht, Hl, Ht', Hl'.
  repeat split. exact Hs'.
Qed.

Lemma destroyed_activity_shows_nothing_witness :
  let h := mkHost 34 0 false false (Some (Some false)) false in
  let a := state (session "https://example.org/" true h [ (1000, Destroyed) ]) in
  let tr := [ (2000, NetworkLost); (3000, BackPressed);
              (6000, PageFinished (Some LOCAL_URL)) ] in
  isDestroyed (host a) = true
  /\ toasts (effects (runTrace tr a)) = []
  /\ launched (effects (runTrace tr a)) = [].
Proof.
  cbv zeta. split; [reflexivity|].
  pose proof (destroyed_activity_shows_nothing
                (state (session "https://example.org/" true
                          (mkHost 34 0 false false (Some (Some false)) false)
                          [ (1000, Destroyed) ]))
                [ (2000, NetworkLost); (3000, BackPressed);
                  (6000, PageFinished (Some LOCAL_URL)) ] eq_refl) as H.
  cbv zeta in H. exact (proj2 H).
Defined.

(** ** Notifications posted through the bridge *)

Lemma toInt_eq (x y : Z) :
  Notifications.toInt x = Notifications.toInt y <->
  x mod 2 ^ 32 = y mod 2 ^ 32.
Proof.
  unfold Notifications.toInt. split; intros H.
  - assert (H' : (x + 2 ^ 31) mod 2 ^ 32 = (y + 2 ^ 31) mod 2 ^ 32) by lia.
    replace x with ((x + 2 ^ 31) - 2 ^ 31) by lia.
    replace y with ((y + 2 ^ 31) - 2 ^ 31) by lia.
    rewrite (Zminus_mod (x + 2 ^ 31)), (Zminus_mod (y + 2 ^ 31)).
    now rewrite H'.
  - rewrite (Zplus_mod x), (Zplus_mod y). now rewrite H.
Qed.

(** X14.  The id of a notification is the low 32 bits of the clock in
    milliseconds.  Of two notifications shown at times that agree modulo
    2^32 ms, in particular in the same millisecond, only the second is left:
    it takes the place of the first.  Shown at times less than 2^32 ms
    apart and not the same, both are there. *)
Theorem notifications_collide_on_clock :
  forall (sdk t1 t2 : Z) (n1 n2 : string * string)
         (nm : Notifications.NotificationManager),
    let nm' := Notifications.showNotification sdk t2 n2.1 n2.2
                 (Notifications.showNotification sdk t1 n1.1 n1.2 nm) in
    (t1 mod 2 ^ 32 = t2 mod 2 ^ 32 ->
     Notifications.posted nm' =
     <[ Notifications.toInt t2 := n2 ]> (Notifications.posted nm))
    /\ (0 < t2 - t1 < 2 ^ 32 ->
        Notifications.toInt t1 <> Notifications.toInt t2
        /\ Notifications.posted nm' !! Notifications.toInt t1 = Some n1
        /\ Notifications.posted nm' !! Notifications.toInt t2 = Some n2).
Proof.
  intros sdk t1 t2 [title1 message1] [title2 message2] nm. cbv zeta.
  unfold Notifications.showNotification, Notifications.notify.
  cbn [fst snd Notifications.posted].
  assert (Hposted : forall m, Notifications.posted
                      (if Notifications.VERSION_CODES_O <=? sdk
                       then Notifications.createNotificationChannel
                              "default_channel" m
                       else m) = Notifications.posted m).
  { intros m. now destruct (_ <=? _). }
  rewrite !Hposted. cbn [Notifications.posted]. split.
  - intros Hsame. apply toInt_eq in Hsame. rewrite Hsame.
    apply insert_insert_eq.
  - intros Hclose.
    assert (Hne : Notifications.toInt t1 <> Notifications.toInt t2).
    { intros Heq. apply toInt_eq in Heq.
      assert (Hdiv : (t2 - t1) mod 2 ^ 32 = 0).
      { rewrite Zminus_mod, Heq, Z.sub_diag. reflexivity. }
      rewrite Z.mod_small in Hdiv by lia. lia. }
    split; [exact Hne|]. split.
    + rewrite lookup_insert_ne by congruence. apply lookup_insert_eq.
    + apply lookup_insert_eq.
Qed.

(** ** The source directory of the generated activity *)

Section PackagePath.

Import Stdlib.Strings.Ascii Generator.

Lemma pieces_replace (p : string) :
  contains "/" p = false ->
  pieces "/" (replace "." "/" p) = pieces "." p.
Proof.
  induction p as [|c p IH]; [reflexivity|].
  cbn [contains replace pieces]. intros Hc.
  apply orb_false_iff in Hc. destruct Hc as (Hc & Hp).
  rewrite <- (IH Hp).
  destruct (Strings.Ascii.eqb_spec c ".") as [->|Hdot].
  - reflexivity.
  - rewrite Hc. reflexivity.
Qed.

Lemma replace_leaves_none (p : string) :
  contains "." (replace "." "/" p) = false.
Proof.
  induction p as [|c p IH]; [reflexivity|].
  cbn [contains replace]. rewrite IH, orb_false_r.
  destruct (Strings.Ascii.eqb_spec c ".") as [->|Hdot]; [reflexivity|].
  now apply Strings.Ascii.eqb_neq.
Qed.

(** No piece of a split holds the separator. *)
Lemma pieces_without_sep (sep : ascii) (s : string) :
  contains sep (fst (pieces sep s)) = false
  /\ Forall (fun c => contains sep c = false) (snd (pieces sep s)).
Proof.
  induction s as [|c s (IHw & IHws)]; [now split|].
  cbn [pieces]. destruct (pieces sep s) as [w ws]. cbn [fst snd] in *.
  destruct (Strings.Ascii.eqb c sep) eqn:Hc; cbn [fst snd contains].
  - split; [reflexivity|]. now constructor.
  - rewrite Hc, IHw. now split.
Qed.

Lemma split_without_sep (sep : ascii) (s : string) :
  Forall (fun c => contains sep c = false) (split sep s).
Proof.
  unfold split. destruct (pieces_without_sep sep s) as (Hw & Hws).
  destruct (pieces sep s) as [w ws]. now constructor.
Qed.

(** Two strings with the same pieces are the same string. *)
Lemma pieces_inj (sep : ascii) (p : string) :
  forall q : string, pieces sep p = pieces sep q -> p = q.
Proof.
  induction p as [|c p IH]; intros [|d q] H; [reflexivity| | |].
  - cbn [pieces] in H. destruct (pieces sep q) as [w ws].
    destruct (Strings.Ascii.eqb d sep); discriminate.
  - cbn [pieces] in H. destruct (pieces sep p) as [w ws].
    destruct (Strings.Ascii.eqb c sep); discriminate.
  - cbn [pieces] in H.
    destruct (pieces sep p) as [w ws] eqn:Hp.
    destruct (pieces sep q) as [w' ws'] eqn:Hq.
    destruct (Strings.Ascii.eqb_spec c sep) as [->|Hc],
             (Strings.Ascii.eqb_spec d sep) as [->|Hd];
      try discriminate.
    + injection H as -> ->. f_equal. apply IH. now rewrite Hq.
    + injection H as -> -> ->. f_equal. apply IH. now rewrite Hq.
Qed.

Lemma split_inj (sep : ascii) (p q : string) :
  split sep p = split sep q -> p = q.
Proof.
  unfold split. intros H. apply (pieces_inj sep).
  destruct (pieces sep p), (pieces sep q). now injection H as -> ->.
Qed.

Lemma filter_nonempty_id (l : list string) :
  Forall (fun c => c <> "") l ->
  List.filter (fun c => negb (String.eqb c "")) l = l.
Proof.
  induction l as [|c l IH]; intros H; [reflexivity|].
  apply Forall_cons in H. destruct H as (Hc & Hl).
  cbn [List.filter]. apply String.eqb_neq in Hc. rewrite Hc. cbn [negb].
  now rewrite IH.
Qed.

Lemma java_dir_components (p : string) :
  contains "/" p = false ->
  java_dir p =
  "java" :: List.filter (fun c => negb (String.eqb c "")) (split "." p).
Proof.
  intros Hp. unfold java_dir, parts, package_path.
  assert (Hjava : split "/" ("java/" ++ replace "." "/" p) =
                  "java" :: split "." p).
  { unfold split. rewrite <- (pieces_replace p Hp). cbv [append].
    cbn [pieces]. destruct (pieces "/" (replace "." "/" p)) as [w ws].
    reflexivity. }
  rewrite Hjava. cbn [List.filter String.eqb negb andb].
  change (Strings.Ascii.eqb "j" ".") with false. cbn [negb andb].
  f_equal. clear Hjava. pose proof (split_without_sep "." p) as Hdot.
  induction (split "." p) as [|c l IH]; [reflexivity|].
  apply Forall_cons in Hdot. destruct Hdot as (Hc & Hl).
  cbn [List.filter]. rewrite (IH Hl).
  assert (Hne : String.eqb c "." = false).
  { apply String.eqb_neq. intros ->. discriminate Hc. }
  rewrite Hne. cbn [negb]. now rewrite andb_true_r.
Qed.

(** X15.  For a package name without [/], the directory of the activity's
    source file has below [java] exactly the non-empty pieces of the package
    name between its dots, in their order.  Two such package names without
    an empty piece never get the same directory; with an empty piece they
    can: [a..b], [a.b.] and [a.b] get the same one. *)
Theorem package_path_follows_package :
  forall package_name : string,
    contains "/" package_name = false ->
    java_dir package_name =
    "java" :: List.filter (fun c => negb (String.eqb c ""))
                (split "." package_name)
    /\ contains "." (package_path package_name) = false
    /\ (forall other : string,
          contains "/" other = false ->
          Forall (fun c => c <> "") (split "." package_name) ->
          Forall (fun c => c <> "") (split "." other) ->
          java_dir other = java_dir package_name -> other = package_name)
    /\ java_dir "a..b" = java_dir "a.b"
    /\ java_dir "a.b." = java_dir "a.b".
Proof.
  intros p Hp. split; [now apply java_dir_components|].
  split; [apply replace_leaves_none|].
  split; [|split; reflexivity].
  intros q Hq Hpieces Hqieces Hdir.
  rewrite (java_dir_components p Hp), (java_dir_components q Hq) in Hdir.
  rewrite (filter_nonempty_id _ Hpieces), (filter_nonempty_id _ Hqieces) in Hdir.
  injection Hdir as Hdir. now apply (split_inj ".").
Qed.

Lemma package_path_follows_package_witness :
  let package_name := "com.test.app" in
  contains "/" package_name = false
  /\ java_dir package_name = [ "java"; "com"; "test"; "app" ]
  /\ package_path package_name = "com/test/app".
Proof.
  cbv zeta.
  destruct (package_path_follows_package "com.test.app" eq_refl)
    as (Hdir & _).
  split; [reflexivity|]. split; [rewrite Hdir|]; reflexivity.
Defined.

End PackagePath.
